(** * tweet-pilot: research extraction, thread store and publishing pipeline

    A shallow embedding of [src/research_client.py], [src/twitter_client.py]
    and [src/thread_generator.py].

    The Python objects that travel through [json] are modelled by the
    inductive [value]; a Python [str] is a Rocq [string] whose characters
    stand for code points below 256.  The generative backend, the social platform, the
    file system and the standard library's [json] and [datetime] modules are
    collaborators of the code: they are parameters of the development, and a
    concrete mock of each is provided to run the code on examples. *)

From Stdlib Require Import Bool Arith ZArith Lia List Ascii String.
From Stdlib Require Import Numbers.DecimalString.

Set Warnings "-register-all".
Import ListNotations.

Open Scope list_scope.
Open Scope string_scope.

(** ** Python string primitives *)

Module PyStr.

Definition nl : ascii := "010"%char.
Definition dq : string := String (ascii_of_nat 34) "".

(** [str.isspace] on a single code point below 256. *)
Definition isspace (c : ascii) : bool :=
  let n := nat_of_ascii c in
  (((9 <=? n) && (n <=? 13)) || ((28 <=? n) && (n <=? 32))
   || (n =? 133) || (n =? 160))%nat.

Fixpoint lstrip (s : string) : string :=
  match s with
  | String c s' => if isspace c then lstrip s' else s
  | EmptyString => EmptyString
  end.

Fixpoint rstrip (s : string) : string :=
  match s with
  | String c s' =>
      match rstrip s' with
      | EmptyString => if isspace c then EmptyString else String c EmptyString
      | r => String c r
      end
  | EmptyString => EmptyString
  end.

(** [s.strip()] *)
Definition strip (s : string) : string := rstrip (lstrip s).

(** [s.startswith(p)] *)
Fixpoint startswith (s p : string) {struct p} : bool :=
  match p with
  | EmptyString => true
  | String c p' =>
      match s with
      | String c' s' => Ascii.eqb c c' && startswith s' p'
      | EmptyString => false
      end
  end.

(** [s.endswith(p)] *)
Fixpoint endswith (s p : string) : bool :=
  (s =? p) ||
  match s with
  | String _ s' => endswith s' p
  | EmptyString => false
  end.

(** [s.split(sep)] for a one-character separator. *)
Fixpoint split (sep : ascii) (s : string) : list string :=
  match s with
  | EmptyString => [EmptyString]
  | String c s' =>
      if Ascii.eqb c sep then EmptyString :: split sep s'
      else match split sep s' with
           | h :: t => String c h :: t
           | [] => [String c EmptyString]
           end
  end.

(** [sep.join(l)] *)
Fixpoint join (sep : string) (l : list string) : string :=
  match l with
  | [] => EmptyString
  | [x] => x
  | x :: rest => x ++ sep ++ join sep rest
  end.

Definition contains (c : ascii) (s : string) : bool :=
  existsb (Ascii.eqb c) (list_ascii_of_string s).

(** [str(n)] for an [int]. *)
Definition of_Z (n : Z) : string := NilZero.string_of_int (Z.to_int n).

(** *** Facts about the primitives *)

Lemma append_nil_r (s : string) : s ++ "" = s.
Proof. induction s as [|c s IH]; simpl; [reflexivity | now rewrite IH]. Qed.

Lemma append_assoc (a b c : string) : (a ++ b) ++ c = a ++ (b ++ c).
Proof. induction a as [|x a IH]; simpl; [reflexivity | now rewrite IH]. Qed.

Lemma split_not_nil sep s : split sep s <> [].
Proof.
  destruct s as [|c s]; simpl; [discriminate|].
  destruct (Ascii.eqb c sep); [discriminate|].
  destruct (split sep s); discriminate.
Qed.

Lemma split_app sep a b :
  split sep (a ++ String sep b) = (split sep a ++ split sep b)%list.
Proof.
  induction a as [|c a IH]; simpl.
  - now rewrite Ascii.eqb_refl.
  - destruct (Ascii.eqb c sep); [now rewrite IH|].
    rewrite IH. pose proof (split_not_nil sep a) as Hn.
    destruct (split sep a); [contradiction | reflexivity].
Qed.

Lemma split_no_sep sep s : contains sep s = false -> split sep s = [s].
Proof.
  unfold contains. induction s as [|c s IH]; simpl; [reflexivity|].
  intros H. apply orb_false_iff in H as [Hc Hs].
  rewrite Ascii.eqb_sym, Hc. now rewrite (IH Hs).
Qed.

Lemma join_split sep s : join (String sep "") (split sep s) = s.
Proof.
  induction s as [|c s IH]; simpl; [reflexivity|].
  destruct (Ascii.eqb c sep) eqn:E.
  - apply Ascii.eqb_eq in E; subst c.
    pose proof (split_not_nil sep s) as Hn.
    destruct (split sep s) as [|h t] eqn:Es; [contradiction|].
    change (join (String sep "") ("" :: h :: t))
      with ("" ++ String sep "" ++ join (String sep "") (h :: t)).
    now rewrite IH.
  - pose proof (split_not_nil sep s) as Hn.
    destruct (split sep s) as [|h t] eqn:Es; [contradiction|].
    destruct t as [|h' t].
    + simpl in *. now rewrite IH.
    + change (join (String sep "") (String c h :: h' :: t))
        with (String c (h ++ String sep "" ++ join (String sep "") (h' :: t))).
      change (join (String sep "") (h :: h' :: t))
        with (h ++ String sep "" ++ join (String sep "") (h' :: t)) in IH.
      now rewrite IH.
Qed.

Lemma endswith_refl s : endswith s s = true.
Proof. destruct s; simpl; now rewrite ?Ascii.eqb_refl, ?String.eqb_refl. Qed.

Lemma endswith_app a p : endswith (a ++ p) p = true.
Proof.
  induction a as [|c a IH]; simpl.
  - apply endswith_refl.
  - rewrite IH. apply orb_true_r.
Qed.

Lemma rstrip_app_fixed a t :
  t <> "" -> rstrip t = t -> rstrip (a ++ t) = a ++ t.
Proof.
  intros Hne Ht. induction a as [|c a IH]; simpl; [exact Ht|].
  rewrite IH. destruct (a ++ t) eqn:E; [|reflexivity].
  destruct a; simpl in E; [contradiction | discriminate].
Qed.

Lemma lstrip_rstrip s : lstrip (rstrip s) = rstrip (lstrip s).
Proof.
  induction s as [|c s IH]; [reflexivity|].
  cbn [lstrip rstrip]. destruct (isspace c) eqn:Ec.
  - rewrite <- IH. destruct (rstrip s) as [|c' r]; [reflexivity|].
    cbn [lstrip]. now rewrite Ec.
  - cbn [rstrip]. destruct (rstrip s) as [|c' r]; cbn [lstrip]; now rewrite Ec.
Qed.

Lemma lstrip_idem s : lstrip (lstrip s) = lstrip s.
Proof.
  induction s as [|c s IH]; simpl; [reflexivity|].
  destruct (isspace c) eqn:Ec; [exact IH|]. simpl. now rewrite Ec.
Qed.

Lemma rstrip_idem s : rstrip (rstrip s) = rstrip s.
Proof.
  induction s as [|c s IH]; simpl; [reflexivity|].
  destruct (rstrip s) as [|c' r] eqn:Er.
  - destruct (isspace c) eqn:Ec; simpl; [reflexivity|]. now rewrite Ec.
  - simpl in *. now rewrite IH.
Qed.

(** Trimming twice is trimming once. *)
Lemma strip_idem s : strip (strip s) = strip s.
Proof.
  unfold strip. rewrite (lstrip_rstrip (lstrip s)).
  now rewrite rstrip_idem, lstrip_idem.
Qed.

End PyStr.


(** ** Python values and exceptions *)

(** The Python objects the code handles are those [json] produces and
    consumes: [None], [bool], [int], [float], [str], [list] and [dict] with
    string keys.  A [dict] keeps its insertion order, so it is an association
    list; a [float] is kept as its literal. *)
Inductive value : Type :=
| VNone
| VBool (b : bool)
| VInt (n : Z)
| VFloat (literal : string)
| VStr (s : string)
| VList (items : list value)
| VDict (fields : list (string * value)).

(** The exception classes the three modules raise, catch or let through. *)
Inductive exn : Type :=
| FileNotFoundError (msg : string)
| JSONDecodeError (msg : string)
| KeyError (key : string)
| TypeError (msg : string)
| ValueError (msg : string)
| AttributeError (msg : string)
| OSError (msg : string)
| TweepyException (msg : string)
| BackendException (msg : string)
| TwitterAPIError (msg : string)
| ResearchError (msg : string)
| ThreadStorageError (msg : string).

(** [str(e)]: the message, and for a [KeyError] the quoted key. *)
Definition str_of_exn (e : exn) : string :=
  match e with
  | KeyError k => "'" ++ k ++ "'"
  | FileNotFoundError m | JSONDecodeError m | TypeError m | ValueError m
  | AttributeError m | OSError m | TweepyException m | BackendException m
  | TwitterAPIError m | ResearchError m | ThreadStorageError m => m
  end.

(** The outcome of a call: a returned value or a raised exception. *)
Inductive result (A : Type) : Type :=
| Return (a : A)
| Raise (e : exn).
Arguments Return {A} a.
Arguments Raise {A} e.

Definition bind {A B} (r : result A) (k : A -> result B) : result B :=
  match r with
  | Return a => k a
  | Raise e => Raise e
  end.

Notation "x <- r ;; k" := (bind r (fun x => k))
  (at level 61, r at next level, right associativity).

(** [try: body except Exception as e: handler(e)] *)
Definition try_except {A} (body : result A) (handler : exn -> result A) : result A :=
  match body with
  | Return a => Return a
  | Raise e => handler e
  end.

(** [type(v).__name__] *)
Definition type_name (v : value) : string :=
  match v with
  | VNone => "NoneType"
  | VBool _ => "bool"
  | VInt _ => "int"
  | VFloat _ => "float"
  | VStr _ => "str"
  | VList _ => "list"
  | VDict _ => "dict"
  end.

Fixpoint assoc (k : string) (fields : list (string * value)) : option value :=
  match fields with
  | [] => None
  | (k', v) :: rest => if k' =? k then Some v else assoc k rest
  end.

(** [data[key]] for a string key. *)
Definition getitem (data : value) (key : string) : result value :=
  match data with
  | VDict fields =>
      match assoc key fields with
      | Some v => Return v
      | None => Raise (KeyError key)
      end
  | VList _ => Raise (TypeError "list indices must be integers or slices, not str")
  | VStr _ => Raise (TypeError "string indices must be integers, not 'str'")
  | v => Raise (TypeError ("'" ++ type_name v ++ "' object is not subscriptable"))
  end.

(** [data.get(key)] *)
Definition dict_get (data : value) (key : string) : result value :=
  match data with
  | VDict fields =>
      match assoc key fields with
      | Some v => Return v
      | None => Return VNone
      end
  | v => Raise (AttributeError ("'" ++ type_name v ++ "' object has no attribute 'get'"))
  end.

(** ** research_client.py *)

(** What [model.generate_content(...)] does: it returns a response whose
    [.text] is the given string, or raises. *)
Inductive generation : Type :=
| Generated (text : string)
| GenerationRaised (e : exn).

(** The block both [research_with_search] and [generate_thread] run on the
    trimmed response text, under the comment "Remove code block markers if
    present". *)
Definition remove_code_block_markers (text : string) : string :=
  if PyStr.startswith text "```" && PyStr.endswith text "```" then
    let lines := PyStr.split PyStr.nl text in
    if (2 <? List.length lines)%nat then
      let text := PyStr.join (String PyStr.nl "") (removelast (tl lines)) in
      if PyStr.startswith text "json" || PyStr.startswith text "JSON" then
        PyStr.join (String PyStr.nl "") (tl (PyStr.split PyStr.nl text))
      else text
    else text
  else text.

(** The test [isinstance(tweets, list) and tweets]. *)
Definition nonempty_list (v : value) : bool :=
  match v with
  | VList (_ :: _) => true
  | _ => false
  end.

Definition error_dict (error details : string) : value :=
  VDict [("error", VStr error); ("details", VStr details)].

Definition research_with_search_prompt (query : string) : string :=
  PyStr.join (String PyStr.nl "")
    [ "Research the following topic using search results: " ++ query;
      "        ";
      "        Please provide:";
      "        1. A comprehensive analysis";
      "        2. Key findings and insights";
      "        3. Citations for all sources used";
      "        ";
      "        Format the response as a JSON with the following structure:";
      "        {";
      "            " ++ PyStr.dq ++ "analysis" ++ PyStr.dq ++ ": " ++ PyStr.dq
        ++ "detailed analysis here" ++ PyStr.dq ++ ",";
      "            " ++ PyStr.dq ++ "key_findings" ++ PyStr.dq ++ ": [" ++ PyStr.dq
        ++ "finding1" ++ PyStr.dq ++ ", " ++ PyStr.dq ++ "finding2" ++ PyStr.dq ++ ", ...],";
      "            " ++ PyStr.dq ++ "citations" ++ PyStr.dq ++ ": [" ++ PyStr.dq
        ++ "citation1" ++ PyStr.dq ++ ", " ++ PyStr.dq ++ "citation2" ++ PyStr.dq ++ ", ...]";
      "        }";
      "        " ].

Definition research_without_search_prompt (query : string) : string :=
  PyStr.join (String PyStr.nl "")
    [ "Research the following topic using your knowledge: " ++ query;
      "        ";
      "        Please provide:";
      "        1. A comprehensive analysis";
      "        2. Key findings and insights";
      "        ";
      "        Format the response as a JSON with the following structure:";
      "        {";
      "            " ++ PyStr.dq ++ "analysis" ++ PyStr.dq ++ ": " ++ PyStr.dq
        ++ "detailed analysis here" ++ PyStr.dq ++ ",";
      "            " ++ PyStr.dq ++ "key_findings" ++ PyStr.dq ++ ": [" ++ PyStr.dq
        ++ "finding1" ++ PyStr.dq ++ ", " ++ PyStr.dq ++ "finding2" ++ PyStr.dq ++ ", ...]";
      "        }";
      "        " ].

Section ResearchClient.

(** [json.loads] ([None] for a [JSONDecodeError]) and [json.dumps]. *)
Variable json_loads : string -> option value.
Variable json_dumps : value -> string.

(** [self.model.generate_content(contents=prompt, generation_config=...)];
    the generation parameters are fixed at construction and belong to the
    backend. *)
Variable generate_content : string -> generation.

Definition generate_thread_prompt (research_data : value) : string :=
  PyStr.join (String PyStr.nl "")
    [ "Convert this research into an engaging Twitter thread.";
      "        Each tweet should be under 280 characters and flow naturally.";
      "        Make it informative yet conversational.";
      "        Include relevant hashtags where appropriate.";
      "        Return ONLY a JSON array of tweet texts, nothing else.";
      "        ";
      "        Research data:";
      "        " ++ json_dumps research_data;
      "        " ].

(** The [try] block of [research_with_search], once the backend answered. *)
Definition research_with_search_response (response_text : string) : value :=
  if response_text =? "" then
    error_dict "No response generated" "The model did not return any content"
  else
    let text := PyStr.strip response_text in
    let text := remove_code_block_markers text in
    match json_loads (PyStr.strip text) with
    | Some v => v
    | None => error_dict "Invalid JSON response" text
    end.

Definition research_with_search (query : string) : value :=
  match generate_content (research_with_search_prompt query) with
  | Generated response_text => research_with_search_response response_text
  | GenerationRaised e => error_dict "Research failed" (str_of_exn e)
  end.

Definition research_without_search_response (response_text : string) : value :=
  if response_text =? "" then
    error_dict "No response generated" "The model did not return any content"
  else
    match json_loads response_text with
    | Some v => v
    | None => error_dict "Invalid JSON response" response_text
    end.

Definition research_without_search (query : string) : value :=
  match generate_content (research_without_search_prompt query) with
  | Generated response_text => research_without_search_response response_text
  | GenerationRaised e => error_dict "Research failed" (str_of_exn e)
  end.

(** The [try] block of [generate_thread], once the backend answered: every
    [raise] in it is still inside the outer [try]. *)
Definition generate_thread_response (response_text : string) : result value :=
  if response_text =? "" then Raise (ResearchError "No response generated")
  else
    let text := PyStr.strip response_text in
    let text := remove_code_block_markers text in
    match json_loads (PyStr.strip text) with
    | Some tweets =>
        if nonempty_list tweets then Return tweets
        else Raise (ResearchError "Invalid tweet list format")
    | None => Raise (ResearchError ("Failed to parse tweets: " ++ text))
    end.

Definition generate_thread (research_data : value) : result value :=
  try_except
    match generate_content (generate_thread_prompt research_data) with
    | Generated response_text => generate_thread_response response_text
    | GenerationRaised e => Raise e
    end
    (fun e => Raise (ResearchError ("Failed to generate thread: " ++ str_of_exn e))).

End ResearchClient.

(** ** A model of the standard library's [json] module

    [PyJson.loads] follows the decoder's grammar (whitespace, literals,
    numbers, strings with escapes, arrays, objects, trailing data refused);
    [PyJson.dumps] and [PyJson.dumps_indent] follow the encoder with
    [ensure_ascii].  Escapes above [ÿ] are outside the string type used
    here and are refused. *)

Module PyJson.

Definition is_ws (c : ascii) : bool :=
  let n := nat_of_ascii c in
  ((n =? 32) || (n =? 9) || (n =? 10) || (n =? 13))%nat.

Fixpoint skip_ws (s : string) : string :=
  match s with
  | String c r => if is_ws c then skip_ws r else s
  | EmptyString => EmptyString
  end.

Definition is_digit (c : ascii) : bool :=
  let n := nat_of_ascii c in ((48 <=? n) && (n <=? 57))%nat.

Fixpoint take_digits (s : string) : string * string :=
  match s with
  | String c r =>
      if is_digit c then let (d, r') := take_digits r in (String c d, r')
      else (EmptyString, s)
  | EmptyString => (EmptyString, EmptyString)
  end.

Fixpoint Z_of_digits (acc : Z) (s : string) : Z :=
  match s with
  | String c r => Z_of_digits (10 * acc + Z.of_nat (nat_of_ascii c - 48)) r
  | EmptyString => acc
  end.

Definition hex_digit (c : ascii) : option nat :=
  let n := nat_of_ascii c in
  if ((48 <=? n) && (n <=? 57))%nat then Some (n - 48)
  else if ((97 <=? n) && (n <=? 102))%nat then Some (n - 87)
  else if ((65 <=? n) && (n <=? 70))%nat then Some (n - 55)
  else None.

(** The optional fraction and exponent of a number literal. *)
Definition take_fraction (s : string) : string * string :=
  match s with
  | String "." r =>
      match take_digits r with
      | (EmptyString, _) => (EmptyString, s)
      | (d, r') => (String "." d, r')
      end
  | _ => (EmptyString, s)
  end.

Definition take_exponent (s : string) : string * string :=
  match s with
  | String e r =>
      if (Ascii.eqb e "e" || Ascii.eqb e "E")%bool then
        let (sign, r1) :=
          match r with
          | String c r' =>
              if (Ascii.eqb c "+" || Ascii.eqb c "-")%bool
              then (String c EmptyString, r') else (EmptyString, r)
          | EmptyString => (EmptyString, r)
          end in
        match take_digits r1 with
        | (EmptyString, _) => (EmptyString, s)
        | (d, r') => (String e (sign ++ d), r')
        end
      else (EmptyString, s)
  | EmptyString => (EmptyString, s)
  end.

Definition parse_number (s : string) : option (value * string) :=
  let (neg, s1) :=
    match s with
    | String "-" r => (true, r)
    | _ => (false, s)
    end in
  let int_part :=
    match s1 with
    | String "0" r => Some ("0", r)
    | String c r =>
        if is_digit c then let (d, r') := take_digits s1 in Some (d, r')
        else None
    | EmptyString => None
    end in
  match int_part with
  | None => None
  | Some (digits, r) =>
      let (frac, r1) := take_fraction r in
      let (expo, r2) := take_exponent r1 in
      match frac, expo with
      | EmptyString, EmptyString =>
          let n := Z_of_digits 0 digits in
          Some (VInt (if neg then (- n)%Z else n), r)
      | _, _ =>
          Some (VFloat ((if neg then "-" else "") ++ digits ++ frac ++ expo), r2)
      end
  end.

(** The characters of a string literal after its opening quote. *)
Fixpoint parse_string (s : string) : option (string * string) :=
  match s with
  | EmptyString => None
  | String c r =>
      if Ascii.eqb c (ascii_of_nat 34) then Some (EmptyString, r)
      else if Ascii.eqb c "\" then
        match r with
        | String e r' =>
            let simple (x : ascii) :=
              match parse_string r' with
              | Some (t, rest) => Some (String x t, rest)
              | None => None
              end in
            if Ascii.eqb e (ascii_of_nat 34) then simple (ascii_of_nat 34)
            else if Ascii.eqb e "\" then simple "\"%char
            else if Ascii.eqb e "/" then simple "/"%char
            else if Ascii.eqb e "b" then simple (ascii_of_nat 8)
            else if Ascii.eqb e "f" then simple (ascii_of_nat 12)
            else if Ascii.eqb e "n" then simple (ascii_of_nat 10)
            else if Ascii.eqb e "r" then simple (ascii_of_nat 13)
            else if Ascii.eqb e "t" then simple (ascii_of_nat 9)
            else if Ascii.eqb e "u" then
              match r' with
              | String h1 (String h2 (String h3 (String h4 r''))) =>
                  match hex_digit h1, hex_digit h2, hex_digit h3, hex_digit h4 with
                  | Some 0, Some 0, Some a, Some b =>
                      match parse_string r'' with
                      | Some (t, rest) => Some (String (ascii_of_nat (16 * a + b)) t, rest)
                      | None => None
                      end
                  | _, _, _, _ => None
                  end
              | _ => None
              end
            else None
        | EmptyString => None
        end
      else if (nat_of_ascii c <? 32)%nat then None
      else
        match parse_string r with
        | Some (t, rest) => Some (String c t, rest)
        | None => None
        end
  end.

(** [dict] assignment: a repeated key keeps its place and takes the new value. *)
Fixpoint dict_set (k : string) (v : value) (fields : list (string * value))
  : list (string * value) :=
  match fields with
  | [] => [(k, v)]
  | (k', v') :: rest =>
      if k' =? k then (k', v) :: rest else (k', v') :: dict_set k v rest
  end.

Definition expect_literal (lit : string) (v : value) (s : string)
  : option (value * string) :=
  if prefix lit s then Some (v, substring (length lit) (length s - length lit) s)
  else None.

Fixpoint parse_value (fuel : nat) (s : string) {struct fuel}
  : option (value * string) :=
  match fuel with
  | O => None
  | S fuel' =>
      match s with
      | EmptyString => None
      | String c r =>
          if Ascii.eqb c (ascii_of_nat 34) then
            match parse_string r with
            | Some (t, rest) => Some (VStr t, rest)
            | None => None
            end
          else if Ascii.eqb c "[" then
            match skip_ws r with
            | String "]" rest => Some (VList [], rest)
            | r' => parse_items fuel' r' []
            end
          else if Ascii.eqb c "{" then
            match skip_ws r with
            | String "}" rest => Some (VDict [], rest)
            | r' => parse_fields fuel' r' []
            end
          else if Ascii.eqb c "n" then expect_literal "null" VNone s
          else if Ascii.eqb c "t" then expect_literal "true" (VBool true) s
          else if Ascii.eqb c "f" then expect_literal "false" (VBool false) s
          else if Ascii.eqb c "N" then expect_literal "NaN" (VFloat "NaN") s
          else if Ascii.eqb c "I" then expect_literal "Infinity" (VFloat "Infinity") s
          else
            match parse_number s with
            | Some res => Some res
            | None => expect_literal "-Infinity" (VFloat "-Infinity") s
            end
      end
  end
with parse_items (fuel : nat) (s : string) (acc : list value) {struct fuel}
  : option (value * string) :=
  match fuel with
  | O => None
  | S fuel' =>
      match parse_value fuel' s with
      | None => None
      | Some (v, r) =>
          match skip_ws r with
          | String "," r' => parse_items fuel' (skip_ws r') (acc ++ [v])%list
          | String "]" r' => Some (VList (acc ++ [v])%list, r')
          | _ => None
          end
      end
  end
with parse_fields (fuel : nat) (s : string) (acc : list (string * value)) {struct fuel}
  : option (value * string) :=
  match fuel with
  | O => None
  | S fuel' =>
      match s with
      | String c r =>
          if Ascii.eqb c (ascii_of_nat 34) then
            match parse_string r with
            | None => None
            | Some (k, r1) =>
                match skip_ws r1 with
                | String ":" r2 =>
                    match parse_value fuel' (skip_ws r2) with
                    | None => None
                    | Some (v, r3) =>
                        match skip_ws r3 with
                        | String "," r4 =>
                            parse_fields fuel' (skip_ws r4) (dict_set k v acc)
                        | String "}" r4 => Some (VDict (dict_set k v acc), r4)
                        | _ => None
                        end
                    end
                | _ => None
                end
            end
          else None
      | EmptyString => None
      end
  end.

(** [json.loads(s)] *)
Definition loads (s : string) : option value :=
  let s := skip_ws s in
  match parse_value (2 * length s + 2) s with
  | Some (v, rest) =>
      match skip_ws rest with
      | EmptyString => Some v
      | _ => None
      end
  | None => None
  end.

Definition hex_char (n : nat) : ascii :=
  if (n <? 10)%nat then ascii_of_nat (48 + n) else ascii_of_nat (87 + n).

Definition escape_char (c : ascii) : string :=
  let n := nat_of_ascii c in
  if (n =? 34)%nat then "\" ++ PyStr.dq
  else if (n =? 92)%nat then "\\"
  else if (n =? 10)%nat then "\n"
  else if (n =? 13)%nat then "\r"
  else if (n =? 9)%nat then "\t"
  else if (n =? 8)%nat then "\b"
  else if (n =? 12)%nat then "\f"
  else if ((32 <=? n) && (n <=? 126))%nat then String c EmptyString
  else "\u00" ++ String (hex_char (n / 16)) (String (hex_char (n mod 16)) EmptyString).

Fixpoint escape (s : string) : string :=
  match s with
  | EmptyString => EmptyString
  | String c r => escape_char c ++ escape r
  end.

Definition encode_str (s : string) : string := PyStr.dq ++ escape s ++ PyStr.dq.

(** [json.dumps(v)] *)
Fixpoint dumps (v : value) : string :=
  match v with
  | VNone => "null"
  | VBool true => "true"
  | VBool false => "false"
  | VInt n => PyStr.of_Z n
  | VFloat literal => literal
  | VStr s => encode_str s
  | VList items => "[" ++ PyStr.join ", " (map dumps items) ++ "]"
  | VDict fields =>
      "{" ++ PyStr.join ", "
               (map (fun kv => encode_str (fst kv) ++ ": " ++ dumps (snd kv)) fields)
          ++ "}"
  end.

Fixpoint spaces (n : nat) : string :=
  match n with
  | O => EmptyString
  | S n' => String " " (spaces n')
  end.

Definition newline_indent (level : nat) : string :=
  String PyStr.nl (spaces (2 * level)).

(** [json.dumps(v, indent=2)] at nesting depth [level]. *)
Fixpoint dumps_indent_at (level : nat) (v : value) : string :=
  match v with
  | VList [] => "[]"
  | VList items =>
      "[" ++ newline_indent (S level)
          ++ PyStr.join ("," ++ newline_indent (S level))
               (map (dumps_indent_at (S level)) items)
          ++ newline_indent level ++ "]"
  | VDict [] => "{}"
  | VDict fields =>
      "{" ++ newline_indent (S level)
          ++ PyStr.join ("," ++ newline_indent (S level))
               (map (fun kv => encode_str (fst kv) ++ ": "
                                 ++ dumps_indent_at (S level) (snd kv)) fields)
          ++ newline_indent level ++ "}"
  | v => dumps v
  end.

Definition dumps_indent (v : value) : string := dumps_indent_at 0 v.

End PyJson.

(** ** twitter_client.py *)

(** [response.data['id']]: the platform hands out a string or an integer. *)
Inductive tweet_id : Type :=
| IdStr (s : string)
| IdInt (n : Z).

(** [str(tweet_id)] *)
Definition id_str (i : tweet_id) : string :=
  match i with
  | IdStr s => s
  | IdInt n => PyStr.of_Z n
  end.

(** The test [if previous_tweet_id:] *)
Definition id_truthy (i : tweet_id) : bool :=
  match i with
  | IdStr s => negb (s =? "")
  | IdInt n => negb (n =? 0)%Z
  end.

(** The keyword arguments of one [client.create_tweet] call. *)
Record tweet_request : Type := {
  text : string;
  in_reply_to_tweet_id : option tweet_id;
  media_ids : option (list Z)
}.

Inductive api_call : Type :=
| CreateTweet (request : tweet_request)
| MediaUpload (filename : string).

Definition is_create_tweet (c : api_call) : bool :=
  match c with
  | CreateTweet _ => true
  | MediaUpload _ => false
  end.

Section TwitterClient.

(** The platform behind [self.client] and [self.api]: [create_tweet] answers
    with the [data['id']] of its response, [media_upload] with the
    [media_id], or they raise. *)
Variable Platform : Type.
Variable create_tweet : Platform -> tweet_request -> Platform * result tweet_id.
Variable media_upload : Platform -> string -> Platform * result Z.

(** The locals of the posting loop, with the platform and the calls made on
    it so far. *)
Record post_state : Type := {
  st_platform : Platform;
  st_calls : list api_call;
  st_tweet_ids : list string;
  st_previous_tweet_id : option tweet_id
}.

Definition post_init (p : Platform) : post_state :=
  {| st_platform := p; st_calls := []; st_tweet_ids := [];
     st_previous_tweet_id := None |}.

Definition reply_to (previous : option tweet_id) : option tweet_id :=
  match previous with
  | Some i => if id_truthy i then Some i else None
  | None => None
  end.

(** [create_tweet] and the three statements after it. *)
Definition submit (st : post_state) (p : Platform) (calls : list api_call)
    (request : tweet_request) : post_state * option exn :=
  let (p', response) := create_tweet p request in
  let calls := (calls ++ [CreateTweet request])%list in
  match response with
  | Return i =>
      ({| st_platform := p'; st_calls := calls;
          st_tweet_ids := (st_tweet_ids st ++ [id_str i])%list;
          st_previous_tweet_id := Some i |}, None)
  | Raise e =>
      ({| st_platform := p'; st_calls := calls;
          st_tweet_ids := st_tweet_ids st;
          st_previous_tweet_id := st_previous_tweet_id st |}, Some e)
  end.

(** One iteration of the loop of [post_thread]. *)
Definition post_tweet (st : post_state) (tweet : string) : post_state * option exn :=
  submit st (st_platform st) (st_calls st)
    {| text := tweet;
       in_reply_to_tweet_id := reply_to (st_previous_tweet_id st);
       media_ids := None |}.

Fixpoint post_loop (tweets : list string) (st : post_state)
  : post_state * option exn :=
  match tweets with
  | [] => (st, None)
  | tweet :: rest =>
      match post_tweet st tweet with
      | (st', None) => post_loop rest st'
      | (st', Some e) => (st', Some e)
      end
  end.

(** [except tweepy.TweepyException as e: raise TwitterAPIError(prefix + str(e))];
    any other exception passes through. *)
Definition except_tweepy (prefix : string) (e : exn) : exn :=
  match e with
  | TweepyException _ => TwitterAPIError (prefix ++ str_of_exn e)
  | _ => e
  end.

Definition post_thread (p : Platform) (tweets : list string)
  : post_state * result (list string) :=
  match post_loop tweets (post_init p) with
  | (st, None) => (st, Return (st_tweet_ids st))
  | (st, Some e) => (st, Raise (except_tweepy "Failed to post thread: " e))
  end.

(** The test [media_paths and i < len(media_paths)]. *)
Definition has_media (media_paths : option (list string)) (i : nat) : option string :=
  match media_paths with
  | Some paths => nth_error paths i
  | None => None
  end.

(** One iteration of the loop of [post_thread_with_media], at index [i]. *)
Definition post_tweet_with_media (media_paths : option (list string))
    (st : post_state) (i : nat) (tweet : string) : post_state * option exn :=
  let request (media : option (list Z)) :=
    {| text := tweet;
       in_reply_to_tweet_id := reply_to (st_previous_tweet_id st);
       media_ids := media |} in
  match has_media media_paths i with
  | Some filename =>
      let (p', media) := media_upload (st_platform st) filename in
      let calls := (st_calls st ++ [MediaUpload filename])%list in
      match media with
      | Return media_id => submit st p' calls (request (Some [media_id]))
      | Raise e =>
          ({| st_platform := p'; st_calls := calls;
              st_tweet_ids := st_tweet_ids st;
              st_previous_tweet_id := st_previous_tweet_id st |}, Some e)
      end
  | None => submit st (st_platform st) (st_calls st) (request None)
  end.

Fixpoint post_loop_with_media (media_paths : option (list string))
    (i : nat) (tweets : list string) (st : post_state) : post_state * option exn :=
  match tweets with
  | [] => (st, None)
  | tweet :: rest =>
      match post_tweet_with_media media_paths st i tweet with
      | (st', None) => post_loop_with_media media_paths (S i) rest st'
      | (st', Some e) => (st', Some e)
      end
  end.

Definition post_thread_with_media (p : Platform) (tweets : list string)
    (media_paths : option (list string)) : post_state * result (list string) :=
  match post_loop_with_media media_paths 0 tweets (post_init p) with
  | (st, None) => (st, Return (st_tweet_ids st))
  | (st, Some e) =>
      (st, Raise (except_tweepy "Failed to post thread with media: " e))
  end.

(** The answers the platform gives to a sequence of [create_tweet] calls. *)
Fixpoint replies (p : Platform) (requests : list tweet_request)
  : list (result tweet_id) :=
  match requests with
  | [] => []
  | r :: rest => let (p', a) := create_tweet p r in a :: replies p' rest
  end.

End TwitterClient.

Arguments st_platform {Platform} _.
Arguments st_calls {Platform} _.
Arguments st_tweet_ids {Platform} _.
Arguments st_previous_tweet_id {Platform} _.

(** The requests [post_thread] makes for [tweets] when the platform assigns
    [ids]: each one quotes the id assigned to the one before it, as far as
    the test [if previous_tweet_id:] lets it through; the first quotes none. *)
Fixpoint request_chain (previous : option tweet_id) (tweets : list string)
    (ids : list tweet_id) : list tweet_request :=
  match tweets with
  | [] => []
  | tweet :: rest =>
      {| text := tweet; in_reply_to_tweet_id := reply_to previous; media_ids := None |}
      :: match ids with
         | i :: ids' => request_chain (Some i) rest ids'
         | [] => []
         end
  end.

(** The texts sent to [create_tweet], in the order of the calls. *)
Fixpoint texts_submitted (calls : list api_call) : list string :=
  match calls with
  | [] => []
  | CreateTweet request :: rest => text request :: texts_submitted rest
  | MediaUpload _ :: rest => texts_submitted rest
  end.

(** A scripted platform: the answers to hand out, call by call. *)
Record mock_platform : Type := {
  tweet_script : list (result tweet_id);
  upload_script : list (result Z)
}.

Definition mock_create_tweet (p : mock_platform) (_ : tweet_request)
  : mock_platform * result tweet_id :=
  match tweet_script p with
  | a :: rest => ({| tweet_script := rest; upload_script := upload_script p |}, a)
  | [] => (p, Raise (TweepyException "503 Service Unavailable"))
  end.

Definition mock_media_upload (p : mock_platform) (_ : string)
  : mock_platform * result Z :=
  match upload_script p with
  | a :: rest => ({| tweet_script := tweet_script p; upload_script := rest |}, a)
  | [] => (p, Raise (TweepyException "503 Service Unavailable"))
  end.

(** ** thread_generator.py *)

(** How writing a file fails, when it does: [open(filepath, 'w')] raises
    and the file is untouched; or the file is opened, hence truncated, and an
    exception is raised once [written] characters have gone to it. *)
Inductive write_failure : Type :=
| OpenFails (e : exn)
| WriteFails (e : exn) (written : nat).

(** What [open(filepath, 'r')] followed by reading yields at each path (a
    missing file raises [FileNotFoundError]), and the failure, if any, of a
    write there. *)
Record filesystem : Type := {
  files : string -> result string;
  write_error : string -> option write_failure
}.

Definition write_file (fs : filesystem) (filepath content : string) : filesystem :=
  {| files := fun p => if p =? filepath then Return content else files fs p;
     write_error := write_error fs |}.

(** [for data in v]: a list yields its items, a dict its keys, a string its
    characters; nothing else can be iterated. *)
Definition iterate (v : value) : result (list value) :=
  match v with
  | VList items => Return items
  | VDict fields => Return (map (fun kv => VStr (fst kv)) fields)
  | VStr s => Return (map (fun c => VStr (String c "")) (list_ascii_of_string s))
  | v => Raise (TypeError ("'" ++ type_name v ++ "' object is not iterable"))
  end.

(** [threads.append(x)] *)
Definition list_append (threads x : value) : result value :=
  match threads with
  | VList items => Return (VList (items ++ [x])%list)
  | v => Raise (AttributeError ("'" ++ type_name v ++ "' object has no attribute 'append'"))
  end.

Fixpoint mapM {A B} (f : A -> result B) (l : list A) : result (list B) :=
  match l with
  | [] => Return []
  | x :: rest => y <- f x ;; ys <- mapM f rest ;; Return (y :: ys)
  end.

Section ThreadGenerator.

(** [json.loads] ([None] for a [JSONDecodeError]) and [json.dumps(_, indent=2)]. *)
Variable json_loads : string -> option value.
Variable json_dumps_indent : value -> string.

(** [datetime.datetime], with [isoformat] and [fromisoformat] ([None] for
    the [ValueError] of a string that is not an ISO date). *)
Variable datetime : Type.
Variable isoformat : datetime -> string.
Variable fromisoformat : string -> option datetime.

(** The attributes of a [Thread]; apart from [created_at] they hold whatever
    Python object they were given. *)
Record Thread : Type := {
  topic : value;
  tweets : value;
  research_data : value;
  created_at : datetime;
  tweet_ids : value
}.

(** [Thread(topic, tweets, research_data)] at time [now]. *)
Definition Thread_init (now : datetime) (topic tweets research_data : value) : Thread :=
  {| topic := topic; tweets := tweets; research_data := research_data;
     created_at := now; tweet_ids := VNone |}.

(** [thread.tweet_ids = tweet_ids], as [ThreadGenerator.post_thread] does
    once the thread is published. *)
Definition set_tweet_ids (thread : Thread) (ids : list string) : Thread :=
  {| topic := topic thread; tweets := tweets thread;
     research_data := research_data thread; created_at := created_at thread;
     tweet_ids := VList (map VStr ids) |}.

Definition to_dict (thread : Thread) : value :=
  VDict [ ("topic", topic thread);
          ("tweets", tweets thread);
          ("research_data", research_data thread);
          ("created_at", VStr (isoformat (created_at thread)));
          ("tweet_ids", tweet_ids thread) ].

Definition datetime_fromisoformat (v : value) : result datetime :=
  match v with
  | VStr s =>
      match fromisoformat s with
      | Some d => Return d
      | None => Raise (ValueError ("Invalid isoformat string: '" ++ s ++ "'"))
      end
  | _ => Raise (TypeError "fromisoformat: argument must be str")
  end.

Definition from_dict (data : value) : result Thread :=
  topic <- getitem data "topic" ;;
  tweets <- getitem data "tweets" ;;
  research_data <- getitem data "research_data" ;;
  created <- getitem data "created_at" ;;
  created_at <- datetime_fromisoformat created ;;
  tweet_ids <- dict_get data "tweet_ids" ;;
  Return {| topic := topic; tweets := tweets; research_data := research_data;
            created_at := created_at; tweet_ids := tweet_ids |}.

(** [with open(filepath, 'r') as f: json.load(f)] *)
Definition json_load (fs : filesystem) (filepath : string) : result value :=
  content <- files fs filepath ;;
  match json_loads content with
  | Some v => Return v
  | None => Raise (JSONDecodeError "Expecting value")
  end.

(** The inner [try] of [save_thread]: the stored history, or an empty list
    when the file is missing or is not JSON. *)
Definition load_existing (fs : filesystem) (filepath : string) : result value :=
  match json_load fs filepath with
  | Raise (FileNotFoundError _) | Raise (JSONDecodeError _) => Return (VList [])
  | r => r
  end.

(** [with open(filepath, 'w') as f: json.dump(threads, f, indent=2)] *)
Definition json_dump (fs : filesystem) (threads : value) (filepath : string)
  : filesystem * result unit :=
  match write_error fs filepath with
  | Some (OpenFails e) => (fs, Raise e)
  | Some (WriteFails e written) =>
      (write_file fs filepath (substring 0 written (json_dumps_indent threads)),
       Raise e)
  | None => (write_file fs filepath (json_dumps_indent threads), Return tt)
  end.

Definition save_thread (fs : filesystem) (thread : Thread) (filepath : string)
  : filesystem * result unit :=
  let storage_error (e : exn) : result unit :=
    Raise (ThreadStorageError ("Failed to save thread: " ++ str_of_exn e)) in
  match load_existing fs filepath with
  | Raise e => (fs, storage_error e)
  | Return threads =>
      match list_append threads (to_dict thread) with
      | Raise e => (fs, storage_error e)
      | Return threads =>
          let (fs', written) := json_dump fs threads filepath in
          (fs', try_except written storage_error)
      end
  end.

Definition load_threads (fs : filesystem) (filepath : string) : result (list Thread) :=
  match (threads_data <- json_load fs filepath ;;
         items <- iterate threads_data ;;
         mapM from_dict items) with
  | Return threads => Return threads
  | Raise (FileNotFoundError _) | Raise (JSONDecodeError _) => Return []
  | Raise e => Raise (ThreadStorageError ("Failed to load threads: " ++ str_of_exn e))
  end.

End ThreadGenerator.

Arguments topic {datetime} _.
Arguments tweets {datetime} _.
Arguments research_data {datetime} _.
Arguments created_at {datetime} _.
Arguments tweet_ids {datetime} _.

(** ** A model of [datetime.datetime]

    A naive timestamp with microseconds.  [isoformat] prints
    [YYYY-MM-DDTHH:MM:SS], followed by [.ffffff] unless the microseconds are
    zero; [fromisoformat] reads back these two spellings. *)

Module PyDatetime.

Local Open Scope Z_scope.

Record datetime : Type := {
  year : Z; month : Z; day : Z;
  hour : Z; minute : Z; second : Z; microsecond : Z
}.

Definition digit (n : Z) : ascii := ascii_of_nat (Z.to_nat (48 + n mod 10)).

(** [n] in decimal on exactly [width] digits. *)
Fixpoint zfill (width : nat) (n : Z) : string :=
  match width with
  | O => EmptyString
  | S w => (zfill w (n / 10) ++ String (digit n) EmptyString)%string
  end.

Definition isoformat (d : datetime) : string :=
  (zfill 4 (year d) ++ "-" ++ zfill 2 (month d) ++ "-" ++ zfill 2 (day d)
   ++ "T" ++ zfill 2 (hour d) ++ ":" ++ zfill 2 (minute d) ++ ":" ++ zfill 2 (second d)
   ++ (if (microsecond d =? 0)%Z then "" else "." ++ zfill 6 (microsecond d)))%string.

(** The number written by the first [width] characters, all digits. *)
Fixpoint read_digits (width : nat) (acc : Z) (s : string) : option (Z * string) :=
  match width with
  | O => Some (acc, s)
  | S w =>
      match s with
      | String c r =>
          if PyJson.is_digit c
          then read_digits w (10 * acc + (Z.of_nat (nat_of_ascii c) - 48)) r
          else None
      | EmptyString => None
      end
  end.

Definition expect (c : ascii) (s : string) : option string :=
  match s with
  | String c' r => if Ascii.eqb c c' then Some r else None
  | EmptyString => None
  end.

Definition is_leap (y : Z) : bool :=
  (y mod 4 =? 0) && (negb (y mod 100 =? 0) || (y mod 400 =? 0)).

Definition days_in_month (y m : Z) : Z :=
  if m =? 2 then (if is_leap y then 29 else 28)
  else if (m =? 4) || (m =? 6) || (m =? 9) || (m =? 11) then 30
  else 31.

Definition valid (d : datetime) : bool :=
  (1 <=? year d) && (year d <=? 9999) && (1 <=? month d) && (month d <=? 12)
  && (1 <=? day d) && (day d <=? days_in_month (year d) (month d))
  && (0 <=? hour d) && (hour d <=? 23) && (0 <=? minute d) && (minute d <=? 59)
  && (0 <=? second d) && (second d <=? 59)
  && (0 <=? microsecond d) && (microsecond d <=? 999999).

Definition option_bind {A B} (o : option A) (k : A -> option B) : option B :=
  match o with
  | Some a => k a
  | None => None
  end.

Definition fromisoformat (s : string) : option datetime :=
  option_bind (read_digits 4 0 s) (fun '(y, s) =>
  option_bind (expect "-" s) (fun s =>
  option_bind (read_digits 2 0 s) (fun '(mo, s) =>
  option_bind (expect "-" s) (fun s =>
  option_bind (read_digits 2 0 s) (fun '(d, s) =>
  option_bind (expect "T" s) (fun s =>
  option_bind (read_digits 2 0 s) (fun '(h, s) =>
  option_bind (expect ":" s) (fun s =>
  option_bind (read_digits 2 0 s) (fun '(mi, s) =>
  option_bind (expect ":" s) (fun s =>
  option_bind (read_digits 2 0 s) (fun '(se, s) =>
  option_bind
    (match s with
     | EmptyString => Some 0
     | _ => option_bind (expect "." s) (fun s =>
            option_bind (read_digits 6 0 s) (fun '(us, s) =>
            match s with
            | EmptyString => Some us
            | _ => None
            end))
     end) (fun us =>
  let d := {| year := y; month := mo; day := d; hour := h; minute := mi;
              second := se; microsecond := us |} in
  if valid d then Some d else None)))))))))))).

End PyDatetime.

(** * Properties *)

(** ** Extraction of JSON from a fenced response *)

(** A response text placed in a fenced code block: the three-character
    marker, whatever follows it on the opening line, the text, and the
    closing marker on a line of its own. *)
Definition fenced (tag body : string) : string :=
  "```" ++ tag ++ String PyStr.nl (body ++ String PyStr.nl "```").

Definition starts_with_json (s : string) : bool :=
  PyStr.startswith s "json" || PyStr.startswith s "JSON".

Lemma startswith_app (a b p : string) :
  PyStr.startswith a p = true -> PyStr.startswith (a ++ b) p = true.
Proof.
  revert a. induction p as [|c p IH]; intros a H; [reflexivity|].
  destruct a as [|c' a]; simpl in *; [discriminate|].
  apply andb_true_iff in H as [Hc Hp]. now rewrite Hc, (IH _ Hp).
Qed.

Lemma fenced_split (tag body : string) :
  fenced tag body = ((("```" ++ tag) ++ String PyStr.nl body) ++ String PyStr.nl "") ++ "```".
Proof.
  unfold fenced. now rewrite !PyStr.append_assoc.
Qed.

Lemma strip_fenced (tag body : string) :
  PyStr.strip (fenced tag body) = fenced tag body.
Proof.
  unfold PyStr.strip.
  replace (PyStr.lstrip (fenced tag body)) with (fenced tag body) by reflexivity.
  rewrite fenced_split. apply PyStr.rstrip_app_fixed; [discriminate | reflexivity].
Qed.

Lemma split_fenced (tag body : string) :
  PyStr.contains PyStr.nl tag = false ->
  PyStr.split PyStr.nl (fenced tag body)
  = (("```" ++ tag)%string :: PyStr.split PyStr.nl body ++ ["```"])%list.
Proof.
  intros Htag. unfold fenced.
  change ("```" ++ tag ++ String PyStr.nl (body ++ String PyStr.nl "```"))
    with (("```" ++ tag) ++ String PyStr.nl (body ++ String PyStr.nl "```")).
  rewrite PyStr.split_app, PyStr.split_app.
  rewrite (PyStr.split_no_sep PyStr.nl ("```" ++ tag)); [reflexivity|].
  exact Htag.
Qed.

(** What the marker-removal block leaves of a fenced text. *)
Lemma remove_code_block_markers_fenced (tag body : string) :
  PyStr.contains PyStr.nl tag = false ->
  remove_code_block_markers (fenced tag body)
  = if starts_with_json body
    then PyStr.join (String PyStr.nl "") (tl (PyStr.split PyStr.nl body))
    else body.
Proof.
  intros Htag. unfold remove_code_block_markers.
  replace (PyStr.startswith (fenced tag body) "```") with true by reflexivity.
  replace (PyStr.endswith (fenced tag body) "```") with true
    by (rewrite fenced_split; symmetry; apply PyStr.endswith_app).
  cbn [andb]. rewrite (split_fenced tag body Htag).
  assert (Hlen : (2 <? List.length (("```" ++ tag)%string
                     :: PyStr.split PyStr.nl body ++ ["```"])%list)%nat = true).
  { apply Nat.ltb_lt. cbn [List.length]. rewrite length_app. cbn [List.length].
    pose proof (PyStr.split_not_nil PyStr.nl body) as Hn.
    destruct (PyStr.split PyStr.nl body); [contradiction | cbn [List.length]; lia]. }
  rewrite Hlen. cbn [tl]. rewrite removelast_last, PyStr.join_split.
  reflexivity.
Qed.

(** A language line in front of the text is dropped with its line break. *)
Lemma drop_language_line (l r : string) :
  PyStr.contains PyStr.nl l = false ->
  PyStr.join (String PyStr.nl "") (tl (PyStr.split PyStr.nl (l ++ String PyStr.nl r))) = r.
Proof.
  intros Hl. rewrite PyStr.split_app, (PyStr.split_no_sep _ _ Hl).
  cbn [app tl]. apply PyStr.join_split.
Qed.

Section Extraction.

Variable json_loads : string -> option value.

(** The text both functions hand to [json.loads] for a response text. *)
Definition json_text (response_text : string) : string :=
  PyStr.strip (remove_code_block_markers (PyStr.strip response_text)).

Lemma research_with_search_response_parsed (response_text : string) (v : value) :
  (response_text =? "") = false ->
  json_loads (json_text response_text) = Some v ->
  research_with_search_response json_loads response_text = v.
Proof.
  intros Hne Hv. unfold research_with_search_response. rewrite Hne.
  unfold json_text in Hv. now rewrite Hv.
Qed.

Lemma generate_thread_response_parsed (response_text : string) (v : value) :
  (response_text =? "") = false ->
  json_loads (json_text response_text) = Some v ->
  generate_thread_response json_loads response_text
  = if nonempty_list v then Return v
    else Raise (ResearchError "Invalid tweet list format").
Proof.
  intros Hne Hv. unfold generate_thread_response. rewrite Hne.
  unfold json_text in Hv. now rewrite Hv.
Qed.

Lemma fenced_not_empty (tag body : string) : (fenced tag body =? "") = false.
Proof. reflexivity. Qed.

Lemma json_text_fenced (tag r : string) :
  PyStr.contains PyStr.nl tag = false ->
  starts_with_json r = false ->
  json_text (fenced tag r) = PyStr.strip r.
Proof.
  intros Htag Hr. unfold json_text.
  rewrite strip_fenced, (remove_code_block_markers_fenced _ _ Htag), Hr.
  reflexivity.
Qed.

Lemma json_text_fenced_language_line (tag l r : string) :
  PyStr.contains PyStr.nl tag = false ->
  PyStr.contains PyStr.nl l = false ->
  starts_with_json l = true ->
  json_text (fenced tag (l ++ String PyStr.nl r)) = PyStr.strip r.
Proof.
  intros Htag Hl Hj. unfold json_text.
  rewrite strip_fenced, (remove_code_block_markers_fenced _ _ Htag).
  assert (Hs : starts_with_json (l ++ String PyStr.nl r) = true).
  { unfold starts_with_json in *.
    apply orb_true_iff in Hj as [Hj | Hj];
      rewrite (startswith_app _ _ _ Hj); [reflexivity | apply orb_true_r]. }
  rewrite Hs, (drop_language_line _ _ Hl). reflexivity.
Qed.

Lemma json_text_plain (r : string) :
  remove_code_block_markers (PyStr.strip r) = PyStr.strip r ->
  json_text r = PyStr.strip r.
Proof. intros H. unfold json_text. rewrite H. apply PyStr.strip_idem. Qed.

(** C2, as amended: a non-empty response [r] that is not itself fenced
    parses to [v].  Then the same response inside a fenced block yields the
    identical parsed value [v], in [research_with_search] and in
    [generate_thread] alike, (a) whatever is written after the opening
    marker on its line, provided [r] does not itself begin with [json] or
    [JSON], and (b) also with a language line of its own in front of [r],
    provided that line begins with [json] or [JSON], the two spellings the
    code tests for. *)
Theorem fenced_response_same_parsed_value (tag r : string) (v : value) :
  PyStr.contains PyStr.nl tag = false ->
  (r =? "") = false ->
  remove_code_block_markers (PyStr.strip r) = PyStr.strip r ->
  json_loads (PyStr.strip r) = Some v ->
  research_with_search_response json_loads r = v
  /\ (starts_with_json r = false ->
      research_with_search_response json_loads (fenced tag r) = v
      /\ generate_thread_response json_loads (fenced tag r)
         = generate_thread_response json_loads r)
  /\ (forall l, PyStr.contains PyStr.nl l = false -> starts_with_json l = true ->
      research_with_search_response json_loads (fenced tag (l ++ String PyStr.nl r)) = v
      /\ generate_thread_response json_loads (fenced tag (l ++ String PyStr.nl r))
         = generate_thread_response json_loads r).
Proof.
  intros Htag Hne Hplain Hv.
  assert (Hr : json_loads (json_text r) = Some v)
    by now rewrite (json_text_plain r Hplain).
  split; [now apply research_with_search_response_parsed|].
  split.
  - intros Hj.
    assert (Hf : json_loads (json_text (fenced tag r)) = Some v)
      by now rewrite (json_text_fenced _ _ Htag Hj).
    split.
    + apply research_with_search_response_parsed; [apply fenced_not_empty | exact Hf].
    + rewrite (generate_thread_response_parsed _ v (fenced_not_empty _ _) Hf).
      now rewrite (generate_thread_response_parsed _ v Hne Hr).
  - intros l Hl Hj.
    assert (Hf : json_loads (json_text (fenced tag (l ++ String PyStr.nl r))) = Some v)
      by now rewrite (json_text_fenced_language_line _ _ _ Htag Hl Hj).
    split.
    + apply research_with_search_response_parsed; [apply fenced_not_empty | exact Hf].
    + rewrite (generate_thread_response_parsed _ v (fenced_not_empty _ _) Hf).
      now rewrite (generate_thread_response_parsed _ v Hne Hr).
Qed.

End Extraction.

(** *** Sample responses *)

(** [{"analysis": "x", "key_findings": ["a", "b"]}] *)
Definition sample_research_text : string :=
  "{" ++ PyStr.dq ++ "analysis" ++ PyStr.dq ++ ": " ++ PyStr.dq ++ "x" ++ PyStr.dq
  ++ ", " ++ PyStr.dq ++ "key_findings" ++ PyStr.dq ++ ": ["
  ++ PyStr.dq ++ "a" ++ PyStr.dq ++ ", " ++ PyStr.dq ++ "b" ++ PyStr.dq ++ "]}".

Definition sample_research : value :=
  VDict [("analysis", VStr "x"); ("key_findings", VList [VStr "a"; VStr "b"])].

(** [["Tweet 1 about quantum", "Tweet 2 #quantum"]] *)
Definition sample_tweets_text : string :=
  "[" ++ PyStr.dq ++ "Tweet 1 about quantum" ++ PyStr.dq ++ ", "
  ++ PyStr.dq ++ "Tweet 2 #quantum" ++ PyStr.dq ++ "]".

Definition sample_tweets : value :=
  VList [VStr "Tweet 1 about quantum"; VStr "Tweet 2 #quantum"].

Fixpoint repeat_char (c : ascii) (n : nat) : string :=
  match n with
  | O => EmptyString
  | S n' => String c (repeat_char c n')
  end.

(** A post of 300 characters, beyond the platform's 280. *)
Definition oversized_tweet : string := repeat_char "a" 300.

Example sample_research_text_loads :
  PyJson.loads sample_research_text = Some sample_research.
Proof. vm_compute. reflexivity. Qed.

Example sample_tweets_text_loads :
  PyJson.loads sample_tweets_text = Some sample_tweets.
Proof. vm_compute. reflexivity. Qed.

Lemma fenced_response_same_parsed_value_witness :
  research_with_search_response PyJson.loads sample_research_text = sample_research
  /\ (starts_with_json sample_research_text = false ->
      research_with_search_response PyJson.loads (fenced "json" sample_research_text)
      = sample_research
      /\ generate_thread_response PyJson.loads (fenced "json" sample_research_text)
         = generate_thread_response PyJson.loads sample_research_text)
  /\ (forall l, PyStr.contains PyStr.nl l = false -> starts_with_json l = true ->
      research_with_search_response PyJson.loads
        (fenced "json" (l ++ String PyStr.nl sample_research_text)) = sample_research
      /\ generate_thread_response PyJson.loads
           (fenced "json" (l ++ String PyStr.nl sample_research_text))
         = generate_thread_response PyJson.loads sample_research_text).
Proof.
  apply (fenced_response_same_parsed_value PyJson.loads "json"
           sample_research_text sample_research);
    vm_compute; reflexivity.
Defined.

(** C2, as the claim states it, fails: a language line spelled [Json] is not
    removed, so the fenced response is reported as invalid JSON although the
    text alone parses. *)
Lemma mixed_case_language_line_is_kept :
  research_with_search_response PyJson.loads sample_research_text = sample_research
  /\ research_with_search_response PyJson.loads
       (fenced "" ("Json" ++ String PyStr.nl sample_research_text))
     = error_dict "Invalid JSON response"
         ("Json" ++ String PyStr.nl sample_research_text).
Proof. split; vm_compute; reflexivity. Qed.

(** A response that is itself fenced loses only its outer fence when it is
    fenced once more. *)
Example fenced_twice_is_not_recovered :
  research_with_search_response PyJson.loads (fenced "" sample_research_text)
  = sample_research
  /\ research_with_search_response PyJson.loads
       (fenced "" (fenced "" sample_research_text))
     = error_dict "Invalid JSON response" (fenced "" sample_research_text).
Proof. split; vm_compute; reflexivity. Qed.

(** The same input with the spelling [JSON] is recovered. *)
Example upper_case_language_line_is_removed :
  research_with_search_response PyJson.loads
    (fenced "" ("JSON" ++ String PyStr.nl sample_research_text)) = sample_research.
Proof. vm_compute. reflexivity. Qed.

(** ** The two research operations *)

(** C3: on the fenced response [```json ... ```] the grounded operation
    returns the parsed object, while the ungrounded one, which parses the raw
    response text, reports invalid JSON. *)
Theorem research_without_search_keeps_fence :
  research_with_search_response PyJson.loads (fenced "json" sample_research_text)
  = sample_research
  /\ research_without_search_response PyJson.loads (fenced "json" sample_research_text)
     = error_dict "Invalid JSON response" (fenced "json" sample_research_text).
Proof. split; vm_compute; reflexivity. Qed.

Section Research.

Variable json_loads : string -> option value.
Variable json_dumps : value -> string.
Variable generate_content : string -> generation.

(** Without a fence, and when trimming does not change what the parser
    sees, the two operations agree. *)
Lemma research_operations_agree_on_plain_text (response_text : string) :
  remove_code_block_markers (PyStr.strip response_text) = PyStr.strip response_text ->
  PyStr.strip response_text = response_text ->
  research_with_search_response json_loads response_text
  = research_without_search_response json_loads response_text.
Proof.
  intros Hplain Htrim.
  unfold research_with_search_response, research_without_search_response.
  destruct (response_text =? ""); [reflexivity|].
  now rewrite Hplain, Htrim, Htrim.
Qed.

(** C5: once the response of the model is parsed to [v], [generate_thread]
    returns [v] itself when it is a non-empty list, whatever its elements
    are, and raises [ResearchError] otherwise. *)
Theorem generate_thread_validates_only_shape
    (research_data : value) (response_text : string) (v : value) :
  generate_content (generate_thread_prompt json_dumps research_data)
  = Generated response_text ->
  (response_text =? "") = false ->
  json_loads (json_text response_text) = Some v ->
  generate_thread json_loads json_dumps generate_content research_data
  = if nonempty_list v then Return v
    else Raise (ResearchError "Failed to generate thread: Invalid tweet list format").
Proof.
  intros Hgen Hne Hv. unfold generate_thread. rewrite Hgen.
  rewrite (generate_thread_response_parsed json_loads _ v Hne Hv).
  destruct (nonempty_list v); reflexivity.
Qed.

(** C6, as amended: a response that parses to an object without a
    [citations] key makes [research_with_search] return that object as it
    is; the result has no [citations] entry, and reading it raises
    [KeyError]. *)
Theorem research_with_search_returns_object_unchanged
    (query response_text : string) (fields : list (string * value)) :
  generate_content (research_with_search_prompt query) = Generated response_text ->
  (response_text =? "") = false ->
  json_loads (json_text response_text) = Some (VDict fields) ->
  assoc "citations" fields = None ->
  research_with_search json_loads generate_content query = VDict fields
  /\ getitem (research_with_search json_loads generate_content query) "citations"
     = Raise (KeyError "citations").
Proof.
  intros Hgen Hne Hv Hc. unfold research_with_search. rewrite Hgen.
  rewrite (research_with_search_response_parsed json_loads _ _ Hne Hv).
  split; [reflexivity|]. simpl. now rewrite Hc.
Qed.

End Research.

Lemma generate_thread_validates_only_shape_witness :
  generate_thread PyJson.loads PyJson.dumps
    (fun _ => Generated ("[" ++ PyStr.dq ++ oversized_tweet ++ PyStr.dq ++ "]"))
    sample_research
  = if nonempty_list (VList [VStr oversized_tweet]) then Return (VList [VStr oversized_tweet])
    else Raise (ResearchError "Failed to generate thread: Invalid tweet list format").
Proof.
  apply (generate_thread_validates_only_shape PyJson.loads PyJson.dumps
           (fun _ => Generated ("[" ++ PyStr.dq ++ oversized_tweet ++ PyStr.dq ++ "]"))
           sample_research
           ("[" ++ PyStr.dq ++ oversized_tweet ++ PyStr.dq ++ "]")
           (VList [VStr oversized_tweet]));
    vm_compute; reflexivity.
Defined.

(** An empty list, and an object, are refused. *)
Example generate_thread_refuses_empty_list :
  generate_thread PyJson.loads PyJson.dumps (fun _ => Generated "[]") sample_research
  = Raise (ResearchError "Failed to generate thread: Invalid tweet list format").
Proof. vm_compute. reflexivity. Qed.

Lemma research_with_search_returns_object_unchanged_witness :
  research_with_search PyJson.loads (fun _ => Generated sample_research_text)
    "quantum computing" = sample_research
  /\ getitem (research_with_search PyJson.loads (fun _ => Generated sample_research_text)
                "quantum computing") "citations"
     = Raise (KeyError "citations").
Proof.
  apply (research_with_search_returns_object_unchanged PyJson.loads
           (fun _ => Generated sample_research_text) "quantum computing"
           sample_research_text);
    vm_compute; reflexivity.
Defined.

(** C6, as the claim states it, fails: for the sample response, which has no
    [citations] field, the result of [research_with_search] holds no
    [citations] at all, in particular not an empty sequence. *)
Lemma missing_citations_are_not_an_empty_sequence :
  let record := research_with_search PyJson.loads
                  (fun _ => Generated sample_research_text) "quantum computing" in
  record = sample_research
  /\ dict_get record "citations" = Return VNone
  /\ dict_get record "citations" <> Return (VList []).
Proof. vm_compute. repeat split; discriminate. Qed.

(** ** Publishing a thread *)

Lemma texts_submitted_app (a b : list api_call) :
  texts_submitted (a ++ b) = (texts_submitted a ++ texts_submitted b)%list.
Proof.
  induction a as [|[r|f] a IH]; simpl; [reflexivity | now rewrite IH | exact IH].
Qed.

Lemma texts_submitted_requests (requests : list tweet_request) :
  texts_submitted (map CreateTweet requests) = map text requests.
Proof. induction requests as [|r rs IH]; simpl; [reflexivity | now rewrite IH]. Qed.

Lemma request_chain_texts (tweets : list string) :
  forall previous ids, List.length ids = List.length tweets ->
  map text (request_chain previous tweets ids) = tweets.
Proof.
  induction tweets as [|t ts IH]; intros previous ids Hlen; [reflexivity|].
  destruct ids as [|i ids]; [discriminate|]. simpl.
  f_equal. apply IH. now injection Hlen.
Qed.

(** When no assigned id is falsy, the chain quotes exactly the ids assigned
    so far, shifted by one post. *)
Lemma request_chain_links (tweets : list string) :
  forall previous ids,
  List.length ids = List.length tweets ->
  forallb id_truthy ids = true ->
  map in_reply_to_tweet_id (request_chain previous tweets ids)
  = firstn (List.length tweets) (reply_to previous :: map Some ids).
Proof.
  induction tweets as [|t ts IH]; intros previous ids Hlen Hids; [reflexivity|].
  destruct ids as [|i ids]; [discriminate|].
  simpl in Hids. apply andb_true_iff in Hids as [Hi Hids].
  cbn [request_chain map List.length firstn in_reply_to_tweet_id]. f_equal.
  rewrite (IH (Some i) ids); [|now injection Hlen | exact Hids].
  cbn [reply_to]. now rewrite Hi.
Qed.

Section Publishing.

Variable Platform : Type.
Variable create_tweet : Platform -> tweet_request -> Platform * result tweet_id.
Variable media_upload : Platform -> string -> Platform * result Z.

Local Abbreviation post_state := (post_state Platform).
Local Abbreviation post_tweet := (post_tweet Platform create_tweet).
Local Abbreviation post_loop := (post_loop Platform create_tweet).
Local Abbreviation post_thread := (post_thread Platform create_tweet).
Local Abbreviation post_tweet_with_media := (post_tweet_with_media Platform create_tweet media_upload).
Local Abbreviation post_loop_with_media := (post_loop_with_media Platform create_tweet media_upload).
Local Abbreviation post_thread_with_media := (post_thread_with_media Platform create_tweet media_upload).
Local Abbreviation replies := (replies Platform create_tweet).

Definition next_request (st : post_state) (tweet : string) : tweet_request :=
  {| text := tweet;
     in_reply_to_tweet_id := reply_to (st_previous_tweet_id st);
     media_ids := None |}.

(** A successful iteration: the platform assigned an id, which is recorded
    as a string and becomes the parent of the next post. *)
Lemma post_tweet_succeeds (st st' : post_state) (tweet : string) :
  post_tweet st tweet = (st', None) ->
  exists i,
    create_tweet (st_platform st) (next_request st tweet) = (st_platform st', Return i)
    /\ st_calls st' = (st_calls st ++ [CreateTweet (next_request st tweet)])%list
    /\ st_tweet_ids st' = (st_tweet_ids st ++ [id_str i])%list
    /\ st_previous_tweet_id st' = Some i.
Proof.
  unfold post_tweet, submit. fold (next_request st tweet).
  destruct (create_tweet (st_platform st) (next_request st tweet)) as [p' [i|e]];
    intros H; inversion H; subst; clear H.
  exists i. repeat split.
Qed.

Lemma post_tweet_fails (st st' : post_state) (tweet : string) (e : exn) :
  post_tweet st tweet = (st', Some e) ->
  create_tweet (st_platform st) (next_request st tweet) = (st_platform st', Raise e)
  /\ st_calls st' = (st_calls st ++ [CreateTweet (next_request st tweet)])%list
  /\ st_tweet_ids st' = st_tweet_ids st.
Proof.
  unfold post_tweet, submit. fold (next_request st tweet).
  destruct (create_tweet (st_platform st) (next_request st tweet)) as [p' [i|e']];
    intros H; inversion H; subst; clear H.
  repeat split.
Qed.

Lemma post_loop_app (a b : list string) :
  forall st,
  post_loop (a ++ b) st
  = match post_loop a st with
    | (st1, None) => post_loop b st1
    | (st1, Some e) => (st1, Some e)
    end.
Proof.
  induction a as [|t a IH]; intros st; simpl; [reflexivity|].
  destruct (post_tweet st t) as [st' [e|]]; [reflexivity | apply IH].
Qed.

(** What a loop that ran to its end has done. *)
Lemma post_loop_succeeds (tweets : list string) :
  forall st st',
  post_loop tweets st = (st', None) ->
  exists ids,
    List.length ids = List.length tweets
    /\ replies (st_platform st) (request_chain (st_previous_tweet_id st) tweets ids)
       = map Return ids
    /\ st_calls st'
       = (st_calls st
          ++ map CreateTweet (request_chain (st_previous_tweet_id st) tweets ids))%list
    /\ st_tweet_ids st' = (st_tweet_ids st ++ map id_str ids)%list.
Proof.
  induction tweets as [|t ts IH]; intros st st' H.
  - simpl in H. inversion H; subst. exists []. simpl.
    now rewrite !app_nil_r.
  - simpl in H. destruct (post_tweet st t) as [st1 [e|]] eqn:Ht; [discriminate|].
    destruct (post_tweet_succeeds _ _ _ Ht) as (i & Hc & Hcalls & Hids & Hprev).
    destruct (IH _ _ H) as (ids & Hlen & Hrep & Hcalls' & Hids').
    exists (i :: ids). rewrite Hprev in *.
    repeat split.
    + simpl. now rewrite Hlen.
    + cbn [request_chain replies map]. fold (next_request st t).
      rewrite Hc. now rewrite Hrep.
    + rewrite Hcalls', Hcalls. cbn [request_chain map]. fold (next_request st t).
      now rewrite <- app_assoc.
    + rewrite Hids', Hids. simpl. now rewrite <- app_assoc.
Qed.

(** C4: a publish that returns has made one call per post, in order; the
    platform assigned [ids], one per post, and the result is their string
    forms in the same order.  The first call quotes no post; the call for a
    later post quotes the id assigned to the post before it, the ids of the
    platform being truthy (non-empty strings, non-zero numbers). *)
Theorem post_thread_builds_reply_chain
    (p : Platform) (tweets : list string) (st : post_state) (posted : list string) :
  post_thread p tweets = (st, Return posted) ->
  exists ids,
    List.length ids = List.length tweets
    /\ posted = map id_str ids
    /\ st_calls st = map CreateTweet (request_chain None tweets ids)
    /\ replies p (request_chain None tweets ids) = map Return ids
    /\ map text (request_chain None tweets ids) = tweets
    /\ (forallb id_truthy ids = true ->
        map in_reply_to_tweet_id (request_chain None tweets ids)
        = firstn (List.length tweets) (None :: map Some ids)).
Proof.
  unfold post_thread.
  destruct (post_loop tweets (post_init Platform p)) as [st' [e|]] eqn:Hloop;
    intros H; inversion H; subst; clear H.
  destruct (post_loop_succeeds _ _ _ Hloop) as (ids & Hlen & Hrep & Hcalls & Hids).
  exists ids. simpl in *. repeat split; try assumption.
  - now apply request_chain_texts.
  - intros Htruthy. now apply (request_chain_links tweets None ids).
Qed.

Lemma post_loop_with_media_app (media_paths : option (list string)) (a b : list string) :
  forall i st,
  post_loop_with_media media_paths i (a ++ b) st
  = match post_loop_with_media media_paths i a st with
    | (st1, None) => post_loop_with_media media_paths (i + List.length a) b st1
    | (st1, Some e) => (st1, Some e)
    end.
Proof.
  induction a as [|t a IH]; intros i st; simpl.
  - now rewrite Nat.add_0_r.
  - destruct (post_tweet_with_media media_paths st i t) as [st' [e|]]; [reflexivity|].
    rewrite IH. now rewrite Nat.add_succ_r.
Qed.

(** One iteration with media: it either records an id after submitting the
    post, or stops at the upload or at the submission of this very post. *)
Lemma post_tweet_with_media_outcome
    (media_paths : option (list string)) (st st' : post_state) (i : nat)
    (tweet : string) (outcome : option exn) :
  post_tweet_with_media media_paths st i tweet = (st', outcome) ->
  match outcome with
  | None =>
      List.length (st_tweet_ids st') = S (List.length (st_tweet_ids st))
      /\ texts_submitted (st_calls st')
         = (texts_submitted (st_calls st) ++ [tweet])%list
  | Some _ =>
      st_tweet_ids st' = st_tweet_ids st
      /\ (texts_submitted (st_calls st') = texts_submitted (st_calls st)
          \/ texts_submitted (st_calls st')
             = (texts_submitted (st_calls st) ++ [tweet])%list)
  end.
Proof.
  unfold post_tweet_with_media, submit.
  destruct (has_media media_paths i) as [filename|].
  - destruct (media_upload (st_platform st) filename) as [p' [media_id|e]].
    + match goal with |- context [create_tweet p' ?r] =>
        destruct (create_tweet p' r) as [p'' [j|e]] end;
        intros H; inversion H; subst; clear H; cbn [st_tweet_ids st_calls];
        rewrite ?texts_submitted_app, ?length_app; simpl;
        rewrite ?app_nil_r; [split; [lia | reflexivity] | split; [reflexivity | now right]].
    + intros H; inversion H; subst; clear H; cbn [st_tweet_ids st_calls].
      rewrite texts_submitted_app. simpl. rewrite app_nil_r.
      split; [reflexivity | now left].
  - match goal with |- context [create_tweet (st_platform st) ?r] =>
      destruct (create_tweet (st_platform st) r) as [p'' [j|e]] end;
      intros H; inversion H; subst; clear H; cbn [st_tweet_ids st_calls];
      rewrite ?texts_submitted_app, ?length_app; simpl;
      [split; [lia | reflexivity] | split; [reflexivity | now right]].
Qed.

Lemma post_loop_with_media_succeeds (media_paths : option (list string))
    (tweets : list string) :
  forall i st st',
  post_loop_with_media media_paths i tweets st = (st', None) ->
  List.length (st_tweet_ids st')
  = List.length (st_tweet_ids st) + List.length tweets
  /\ texts_submitted (st_calls st') = (texts_submitted (st_calls st) ++ tweets)%list.
Proof.
  induction tweets as [|t ts IH]; intros i st st' H; simpl in H.
  - inversion H; subst. now rewrite Nat.add_0_r, app_nil_r.
  - destruct (post_tweet_with_media media_paths st i t) as [st1 [e|]] eqn:Ht;
      [discriminate|].
    apply post_tweet_with_media_outcome in Ht as [Hl Hc].
    destruct (IH _ _ _ H) as [Hl' Hc'].
    rewrite Hl', Hc', Hl, Hc. simpl. split; [lia | now rewrite <- app_assoc].
Qed.

(** C1, as amended: when the posts before index [k] went through and the
    iteration for the post at index [k] raises [e], both publishing
    operations stop in the state that iteration left: the posts up to index
    [k] are the only ones submitted, [k] ids have been collected, and the
    caller gets the exception alone, a [TwitterAPIError] with the prefixed
    message when [e] is a [TweepyException]. *)
Theorem publish_aborts_at_first_failure :
  (forall (p : Platform) (pre : list string) (t : string) (post : list string)
          (st1 st2 : post_state) (e : exn),
      post_loop pre (post_init Platform p) = (st1, None) ->
      post_tweet st1 t = (st2, Some e) ->
      post_thread p (pre ++ t :: post)
      = (st2, Raise (except_tweepy "Failed to post thread: " e))
      /\ texts_submitted (st_calls st2) = (pre ++ [t])%list
      /\ List.length (st_tweet_ids st2) = List.length pre)
  /\
  (forall (p : Platform) (media_paths : option (list string))
          (pre : list string) (t : string) (post : list string)
          (st1 st2 : post_state) (e : exn),
      post_loop_with_media media_paths 0 pre (post_init Platform p) = (st1, None) ->
      post_tweet_with_media media_paths st1 (List.length pre) t = (st2, Some e) ->
      post_thread_with_media p (pre ++ t :: post) media_paths
      = (st2, Raise (except_tweepy "Failed to post thread with media: " e))
      /\ (texts_submitted (st_calls st2) = pre
          \/ texts_submitted (st_calls st2) = (pre ++ [t])%list)
      /\ List.length (st_tweet_ids st2) = List.length pre).
Proof.
  split.
  - intros p pre t post st1 st2 e Hpre Ht.
    unfold post_thread. rewrite post_loop_app, Hpre. simpl. rewrite Ht.
    destruct (post_loop_succeeds _ _ _ Hpre) as (ids & Hlen & _ & Hcalls & Hids).
    destruct (post_tweet_fails _ _ _ _ Ht) as (_ & Hcalls2 & Hids2).
    split; [reflexivity|]. split.
    + rewrite Hcalls2, Hcalls. simpl.
      rewrite !texts_submitted_app, texts_submitted_requests. simpl.
      now rewrite (request_chain_texts pre None ids Hlen).
    + rewrite Hids2, Hids. simpl. now rewrite length_map.
  - intros p media_paths pre t post st1 st2 e Hpre Ht.
    unfold post_thread_with_media. rewrite post_loop_with_media_app, Hpre.
    simpl. rewrite Ht.
    destruct (post_loop_with_media_succeeds _ _ _ _ _ Hpre) as [Hl Hc].
    apply post_tweet_with_media_outcome in Ht as [Hids Htexts].
    simpl in Hl, Hc. split; [reflexivity|]. split.
    + destruct Htexts as [H | H]; rewrite H, Hc; [now left | now right].
    + now rewrite Hids, Hl.
Qed.

End Publishing.

(** *** Runs against the scripted platform *)

Definition scripted (answers : list (result tweet_id)) : mock_platform :=
  {| tweet_script := answers; upload_script := [] |}.

Definition mock_post_thread :=
  post_thread mock_platform mock_create_tweet.

Definition mock_post_thread_with_media :=
  post_thread_with_media mock_platform mock_create_tweet mock_media_upload.

(** The platform assigns ["100"] then ["101"]: the second request quotes
    ["100"] and the result is [["100"; "101"]]. *)
Example post_thread_two_posts :
  let run := mock_post_thread (scripted [Return (IdStr "100"); Return (IdStr "101")])
               ["Tweet 1 about quantum"; "Tweet 2 #quantum"] in
  snd run = Return ["100"; "101"]
  /\ st_calls (fst run)
     = [ CreateTweet {| text := "Tweet 1 about quantum";
                        in_reply_to_tweet_id := None; media_ids := None |};
         CreateTweet {| text := "Tweet 2 #quantum";
                        in_reply_to_tweet_id := Some (IdStr "100"); media_ids := None |} ].
Proof. vm_compute. split; reflexivity. Qed.

Lemma post_thread_builds_reply_chain_witness :
  exists ids,
    List.length ids = 2
    /\ ["100"; "101"] = map id_str ids
    /\ st_calls (fst (mock_post_thread
                        (scripted [Return (IdStr "100"); Return (IdStr "101")])
                        ["Tweet 1 about quantum"; "Tweet 2 #quantum"]))
       = map CreateTweet
           (request_chain None ["Tweet 1 about quantum"; "Tweet 2 #quantum"] ids)
    /\ replies mock_platform mock_create_tweet
         (scripted [Return (IdStr "100"); Return (IdStr "101")])
         (request_chain None ["Tweet 1 about quantum"; "Tweet 2 #quantum"] ids)
       = map Return ids
    /\ map text (request_chain None ["Tweet 1 about quantum"; "Tweet 2 #quantum"] ids)
       = ["Tweet 1 about quantum"; "Tweet 2 #quantum"]
    /\ (forallb id_truthy ids = true ->
        map in_reply_to_tweet_id
          (request_chain None ["Tweet 1 about quantum"; "Tweet 2 #quantum"] ids)
        = firstn 2 (None :: map Some ids)).
Proof.
  apply (post_thread_builds_reply_chain mock_platform mock_create_tweet
           (scripted [Return (IdStr "100"); Return (IdStr "101")])
           ["Tweet 1 about quantum"; "Tweet 2 #quantum"]).
  vm_compute. reflexivity.
Defined.

Lemma publish_aborts_at_first_failure_witness :
  let p := scripted [Return (IdStr "100"); Raise (TweepyException "403 Forbidden")] in
  let st1 := fst (post_loop mock_platform mock_create_tweet ["a"]
                    (post_init mock_platform p)) in
  let st2 := fst (post_tweet mock_platform mock_create_tweet st1 "b") in
  mock_post_thread p (["a"] ++ "b" :: ["c"])
  = (st2, Raise (except_tweepy "Failed to post thread: " (TweepyException "403 Forbidden")))
  /\ texts_submitted (st_calls st2) = (["a"] ++ ["b"])%list
  /\ List.length (st_tweet_ids st2) = List.length ["a"].
Proof.
  intros p st1 st2.
  apply (proj1 (publish_aborts_at_first_failure mock_platform mock_create_tweet
                  mock_media_upload) p ["a"] "b" ["c"] st1 st2);
    vm_compute; reflexivity.
Defined.

(** With media, a failing upload for the second post stops the publish
    before that post is submitted. *)
Example post_thread_with_media_upload_fails :
  let p := {| tweet_script := [Return (IdStr "100"); Return (IdStr "101")];
              upload_script := [Return 7%Z; Raise (TweepyException "413 Too Large")] |} in
  let run := mock_post_thread_with_media p ["a"; "b"; "c"] (Some ["a.png"; "b.png"]) in
  snd run = Raise (TwitterAPIError "Failed to post thread with media: 413 Too Large")
  /\ st_calls (fst run)
     = [ MediaUpload "a.png";
         CreateTweet {| text := "a"; in_reply_to_tweet_id := None;
                        media_ids := Some [7%Z] |};
         MediaUpload "b.png" ]
  /\ st_tweet_ids (fst run) = ["100"].
Proof. vm_compute. repeat split; reflexivity. Qed.

(** C1, as the claim states it, fails: what the caller receives is the
    raised exception, and neither the ids collected so far nor the index of
    the failing post can be read off it.  A failure at the first post and a
    failure at the second one raise the very same exception. *)
Lemma report_carries_no_partial_failure :
  ~ exists (completedIds : exn -> list string) (failureIndex : exn -> nat),
      forall (p : mock_platform) (tweets : list string)
             (st : post_state mock_platform) (e : exn),
        mock_post_thread p tweets = (st, Raise e) ->
        completedIds e = st_tweet_ids st
        /\ failureIndex e = List.length (st_tweet_ids st).
Proof.
  intros (completedIds & failureIndex & H).
  pose (p0 := scripted [Raise (TweepyException "403 Forbidden")]).
  pose (p1 := scripted [Return (IdStr "100"); Raise (TweepyException "403 Forbidden")]).
  assert (H0 : mock_post_thread p0 ["a"; "b"]
               = (fst (mock_post_thread p0 ["a"; "b"]),
                  Raise (TwitterAPIError "Failed to post thread: 403 Forbidden")))
    by (vm_compute; reflexivity).
  assert (H1 : mock_post_thread p1 ["a"; "b"]
               = (fst (mock_post_thread p1 ["a"; "b"]),
                  Raise (TwitterAPIError "Failed to post thread: 403 Forbidden")))
    by (vm_compute; reflexivity).
  destruct (H _ _ _ _ H0) as [_ F0]. destruct (H _ _ _ _ H1) as [_ F1].
  rewrite F0 in F1. vm_compute in F1. discriminate.
Qed.

(** ** The thread store *)

(** The exceptions both [save_thread] and [load_threads] take for "nothing
    stored yet". *)
Definition tolerated (e : exn) : bool :=
  match e with
  | FileNotFoundError _ | JSONDecodeError _ => true
  | _ => false
  end.

Definition required_fields : list string :=
  ["topic"; "tweets"; "research_data"; "created_at"].

(** A stored entry that is an object without one of the required fields. *)
Definition lacks_required_field (entry : value) : bool :=
  match entry with
  | VDict fields =>
      existsb (fun k => match assoc k fields with
                        | None => true
                        | Some _ => false
                        end) required_fields
  | _ => false
  end.

(** A file system with no file at all, on which every write succeeds. *)
Definition empty_fs : filesystem :=
  {| files := fun p =>
       Raise (FileNotFoundError ("[Errno 2] No such file or directory: '" ++ p ++ "'"));
     write_error := fun _ => None |}.

Lemma mapM_app {A B} (f : A -> result B) (l1 l2 : list A) (r1 r2 : list B) :
  mapM f l1 = Return r1 -> mapM f l2 = Return r2 ->
  mapM f (l1 ++ l2) = Return (r1 ++ r2)%list.
Proof.
  revert r1. induction l1 as [|x l1 IH]; intros r1 H1 H2; simpl in *.
  - now inversion H1.
  - destruct (f x) as [y|e]; simpl in *; [|discriminate].
    destruct (mapM f l1) as [ys|e]; simpl in *; [|discriminate].
    inversion H1; subst. now rewrite (IH ys eq_refl H2).
Qed.

Section Store.

Variable json_loads : string -> option value.
Variable json_dumps_indent : value -> string.
Variable datetime : Type.
Variable isoformat : datetime -> string.
Variable fromisoformat : string -> option datetime.

Local Abbreviation Thread := (Thread datetime).
Local Abbreviation to_dict := (to_dict datetime isoformat).
Local Abbreviation from_dict := (from_dict datetime fromisoformat).
Local Abbreviation load_existing := (load_existing json_loads).
Local Abbreviation save_thread := (save_thread json_loads json_dumps_indent datetime isoformat).
Local Abbreviation load_threads := (load_threads json_loads datetime fromisoformat).

(** The history on disk before a save: the entries of the stored array, and
    no entry when the file is absent or its content is not JSON. *)
Definition prior_history (fs : filesystem) (filepath : string) : option (list value) :=
  match files fs filepath with
  | Return content =>
      match json_loads content with
      | None => Some []
      | Some (VList entries) => Some entries
      | Some _ => None
      end
  | Raise (FileNotFoundError _) => Some []
  | Raise _ => None
  end.

(** The file is absent, or its content is not JSON. *)
Definition absent_or_corrupt (fs : filesystem) (filepath : string) : bool :=
  match files fs filepath with
  | Return content =>
      match json_loads content with
      | None => true
      | Some _ => false
      end
  | Raise (FileNotFoundError _) => true
  | Raise _ => false
  end.

Lemma load_existing_prior (fs : filesystem) (filepath : string) (prior : list value) :
  prior_history fs filepath = Some prior ->
  load_existing fs filepath = Return (VList prior).
Proof.
  unfold prior_history, load_existing, json_load.
  destruct (files fs filepath) as [content|e]; simpl.
  - destruct (json_loads content) as [v|]; [|now intros [= <-]].
    destruct v; try discriminate. now intros [= <-].
  - destruct e; try discriminate. now intros [= <-].
Qed.

Lemma files_write_file (fs : filesystem) (filepath content : string) :
  files (write_file fs filepath content) filepath = Return content.
Proof. simpl. now rewrite String.eqb_refl. Qed.

(** Writing one file leaves the others as they were. *)
Lemma files_write_file_other (fs : filesystem) (filepath content other : string) :
  other <> filepath ->
  files (write_file fs filepath content) other = files fs other.
Proof. intros H. simpl. apply String.eqb_neq in H. now rewrite H. Qed.

Lemma save_thread_writes (fs : filesystem) (thread : Thread) (filepath : string)
    (prior : list value) :
  write_error fs filepath = None ->
  prior_history fs filepath = Some prior ->
  save_thread fs thread filepath
  = (write_file fs filepath (json_dumps_indent (VList (prior ++ [to_dict thread])%list)),
     Return tt).
Proof.
  intros Hw Hp. unfold save_thread.
  rewrite (load_existing_prior _ _ _ Hp). simpl.
  unfold json_dump. now rewrite Hw.
Qed.

(** C7: with [prior] the history on disk (empty when the file is absent or
    corrupt) and the path writable, [save_thread] writes [prior] followed by
    the serialized thread as one new last entry.  Saving a second thread
    afterwards, such as the same thread with its tweet ids set, appends
    again: the history then ends with both entries. *)
Theorem save_thread_appends (fs : filesystem) (thread : Thread) (filepath : string)
    (prior : list value) :
  write_error fs filepath = None ->
  prior_history fs filepath = Some prior ->
  let history := (prior ++ [to_dict thread])%list in
  let fs' := write_file fs filepath (json_dumps_indent (VList history)) in
  save_thread fs thread filepath = (fs', Return tt)
  /\ firstn (List.length prior) history = prior
  /\ (json_loads (json_dumps_indent (VList history)) = Some (VList history) ->
      forall updated : Thread,
      save_thread fs' updated filepath
      = (write_file fs' filepath
           (json_dumps_indent (VList (prior ++ [to_dict thread; to_dict updated])%list)),
         Return tt)).
Proof.
  intros Hw Hp history fs'. split; [now apply save_thread_writes|]. split.
  - unfold history. rewrite firstn_app, Nat.sub_diag, firstn_all. simpl.
    apply app_nil_r.
  - intros Hrt updated.
    rewrite (save_thread_writes fs' updated filepath history).
    + unfold history. now rewrite <- app_assoc.
    + exact Hw.
    + unfold prior_history, fs'. now rewrite files_write_file, Hrt.
Qed.

(** Deserializing what [to_dict] produced gives the thread back, as soon as
    the timestamp survives its ISO spelling. *)
Lemma from_dict_to_dict (thread : Thread) :
  fromisoformat (isoformat (created_at thread)) = Some (created_at thread) ->
  from_dict (to_dict thread) = Return thread.
Proof.
  intros Hiso. unfold from_dict, to_dict. simpl. rewrite Hiso. simpl.
  now destruct thread.
Qed.

(** C8: on a writable path whose prior history deserializes to [old],
    [save_thread] followed by [load_threads] returns [old] followed by the
    saved thread itself, all five attributes included, provided the JSON
    written reads back as the value it was written from and the timestamp
    survives its ISO spelling. *)
Theorem save_then_load_round_trip (fs : filesystem) (thread : Thread)
    (filepath : string) (prior : list value) (old : list Thread) :
  write_error fs filepath = None ->
  prior_history fs filepath = Some prior ->
  mapM from_dict prior = Return old ->
  json_loads (json_dumps_indent (VList (prior ++ [to_dict thread])%list))
  = Some (VList (prior ++ [to_dict thread])%list) ->
  fromisoformat (isoformat (created_at thread)) = Some (created_at thread) ->
  snd (save_thread fs thread filepath) = Return tt
  /\ load_threads (fst (save_thread fs thread filepath)) filepath
     = Return (old ++ [thread])%list
  /\ last (old ++ [thread])%list thread = thread.
Proof.
  intros Hw Hp Hold Hrt Hiso.
  rewrite (save_thread_writes _ _ _ _ Hw Hp). simpl fst; simpl snd.
  split; [reflexivity|]. split; [|apply last_last].
  unfold load_threads, json_load. rewrite files_write_file.
  cbn [bind]. rewrite Hrt. cbn [bind iterate].
  rewrite (mapM_app from_dict prior [to_dict thread] old [thread] Hold);
    [reflexivity|].
  cbn [mapM]. now rewrite (from_dict_to_dict thread Hiso).
Qed.

(** C9: when the file is absent or its content is not JSON, [load_threads]
    returns the empty list. *)
Theorem load_threads_absent_or_corrupt (fs : filesystem) (filepath : string) :
  absent_or_corrupt fs filepath = true ->
  load_threads fs filepath = Return [].
Proof.
  unfold absent_or_corrupt, load_threads, json_load.
  destruct (files fs filepath) as [content|e]; simpl.
  - now destruct (json_loads content).
  - now destruct e.
Qed.

(** [from_dict] raises nothing that the store tolerates. *)
Lemma from_dict_raises_untolerated (data : value) (e : exn) :
  from_dict data = Raise e -> tolerated e = false.
Proof.
  unfold from_dict. destruct data; simpl; try (now intros [= <-]).
  destruct (assoc "topic" fields); simpl; [|now intros [= <-]].
  destruct (assoc "tweets" fields); simpl; [|now intros [= <-]].
  destruct (assoc "research_data" fields); simpl; [|now intros [= <-]].
  destruct (assoc "created_at" fields) as [created|]; simpl; [|now intros [= <-]].
  unfold datetime_fromisoformat.
  destruct created; simpl; try (now intros [= <-]).
  destruct (fromisoformat s); simpl; [|now intros [= <-]].
  destruct (assoc "tweet_ids" fields); discriminate.
Qed.

Lemma from_dict_lacking_field (data : value) :
  lacks_required_field data = true -> exists e, from_dict data = Raise e.
Proof.
  unfold lacks_required_field, from_dict. destruct data; try discriminate.
  unfold required_fields. cbn [existsb getitem].
  destruct (assoc "topic" fields); cbn [bind orb]; [|eexists; reflexivity].
  destruct (assoc "tweets" fields); cbn [bind orb]; [|eexists; reflexivity].
  destruct (assoc "research_data" fields); cbn [bind orb]; [|eexists; reflexivity].
  destruct (assoc "created_at" fields); cbn [bind orb]; [|eexists; reflexivity].
  discriminate.
Qed.

Lemma mapM_from_dict_lacking_field (entries : list value) :
  existsb lacks_required_field entries = true ->
  exists e, mapM from_dict entries = Raise e /\ tolerated e = false.
Proof.
  induction entries as [|x entries IH]; [discriminate|].
  intros H. cbn [mapM]. destruct (from_dict x) as [t|e] eqn:Hx.
  - simpl in H. destruct (lacks_required_field x) eqn:Hl.
    + destruct (from_dict_lacking_field x Hl) as [e He]. congruence.
    + destruct (IH H) as (e & He & Ht). exists e. cbn [bind]. now rewrite He.
  - exists e. split; [reflexivity | now apply from_dict_raises_untolerated with x].
Qed.

(** C10: when the file holds a JSON array one of whose entries is an object
    without a required field, [load_threads] raises [ThreadStorageError]; it
    does not return the empty list. *)
Theorem load_threads_schema_mismatch_raises (fs : filesystem) (filepath content : string)
    (entries : list value) :
  files fs filepath = Return content ->
  json_loads content = Some (VList entries) ->
  existsb lacks_required_field entries = true ->
  (exists msg, load_threads fs filepath = Raise (ThreadStorageError msg))
  /\ load_threads fs filepath <> Return [].
Proof.
  intros Hf Hj Hl.
  destruct (mapM_from_dict_lacking_field entries Hl) as (e & He & Ht).
  assert (H : load_threads fs filepath
              = Raise (ThreadStorageError ("Failed to load threads: " ++ str_of_exn e))).
  { unfold load_threads, json_load. rewrite Hf. cbn [bind]. rewrite Hj.
    cbn [bind iterate]. rewrite He. destruct e; try reflexivity; discriminate. }
  rewrite H. split; [eexists; reflexivity | discriminate].
Qed.

End Store.

(** *** Runs of the store on the models of [json] and [datetime] *)

Definition history_path : string := "data/thread_history.json".

Definition sample_time : PyDatetime.datetime :=
  {| PyDatetime.year := 2024; PyDatetime.month := 3; PyDatetime.day := 9;
     PyDatetime.hour := 7; PyDatetime.minute := 5; PyDatetime.second := 0;
     PyDatetime.microsecond := 1234 |}.

(** The draft of the end-to-end scenario, and the same thread once posted. *)
Definition sample_thread : Thread PyDatetime.datetime :=
  Thread_init PyDatetime.datetime sample_time
    (VStr "quantum computing") sample_tweets sample_research.

Definition sample_posted_thread : Thread PyDatetime.datetime :=
  set_tweet_ids PyDatetime.datetime sample_thread ["100"; "101"].

Definition mock_to_dict := to_dict PyDatetime.datetime PyDatetime.isoformat.

Definition mock_save_thread :=
  save_thread PyJson.loads PyJson.dumps_indent PyDatetime.datetime PyDatetime.isoformat.

Definition mock_load_threads :=
  load_threads PyJson.loads PyDatetime.datetime PyDatetime.fromisoformat.

(** The file system after the draft has been saved on an empty disk. *)
Definition fs_with_draft : filesystem :=
  fst (mock_save_thread empty_fs sample_thread history_path).

Example sample_time_isoformat :
  PyDatetime.isoformat sample_time = "2024-03-09T07:05:00.001234".
Proof. vm_compute. reflexivity. Qed.

Lemma save_thread_appends_witness :
  mock_save_thread fs_with_draft sample_posted_thread history_path
  = (write_file fs_with_draft history_path
       (PyJson.dumps_indent
          (VList [mock_to_dict sample_thread; mock_to_dict sample_posted_thread])),
     Return tt)
  /\ firstn 1 [mock_to_dict sample_thread; mock_to_dict sample_posted_thread]
     = [mock_to_dict sample_thread].
Proof.
  destruct (save_thread_appends PyJson.loads PyJson.dumps_indent PyDatetime.datetime
              PyDatetime.isoformat fs_with_draft sample_posted_thread history_path
              [mock_to_dict sample_thread])
    as (Hsave & Hprefix & _); [reflexivity | vm_compute; reflexivity |].
  split; [exact Hsave | exact Hprefix].
Defined.

(** Saving the draft and then the posted thread leaves two entries for the
    one thread: the first without tweet ids, the second with them. *)
Example resaving_duplicates_the_thread :
  let fs := fst (mock_save_thread fs_with_draft sample_posted_thread history_path) in
  mock_load_threads fs history_path = Return [sample_thread; sample_posted_thread].
Proof. vm_compute. reflexivity. Qed.

Lemma save_then_load_round_trip_witness :
  snd (mock_save_thread fs_with_draft sample_posted_thread history_path) = Return tt
  /\ mock_load_threads
       (fst (mock_save_thread fs_with_draft sample_posted_thread history_path))
       history_path
     = Return ([sample_thread] ++ [sample_posted_thread])%list
  /\ last ([sample_thread] ++ [sample_posted_thread])%list sample_posted_thread
     = sample_posted_thread.
Proof.
  apply (save_then_load_round_trip PyJson.loads PyJson.dumps_indent
           PyDatetime.datetime PyDatetime.isoformat PyDatetime.fromisoformat
           fs_with_draft sample_posted_thread history_path
           [mock_to_dict sample_thread] [sample_thread]);
    vm_compute; reflexivity.
Defined.

Lemma load_threads_absent_or_corrupt_witness :
  mock_load_threads empty_fs history_path = Return []
  /\ mock_load_threads (write_file empty_fs history_path "not json") history_path
     = Return [].
Proof.
  split;
    apply (load_threads_absent_or_corrupt PyJson.loads PyDatetime.datetime
             PyDatetime.fromisoformat);
    vm_compute; reflexivity.
Defined.

(** [[{"topic": "t"}]]: an array whose only entry has no [tweets]. *)
Definition incomplete_history_text : string :=
  "[{" ++ PyStr.dq ++ "topic" ++ PyStr.dq ++ ": " ++ PyStr.dq ++ "t" ++ PyStr.dq ++ "}]".

Lemma load_threads_schema_mismatch_raises_witness :
  (exists msg,
      mock_load_threads (write_file empty_fs history_path incomplete_history_text)
        history_path = Raise (ThreadStorageError msg))
  /\ mock_load_threads (write_file empty_fs history_path incomplete_history_text)
       history_path <> Return [].
Proof.
  apply (load_threads_schema_mismatch_raises PyJson.loads PyDatetime.datetime
           PyDatetime.fromisoformat
           (write_file empty_fs history_path incomplete_history_text)
           history_path incomplete_history_text
           [VDict [("topic", VStr "t")]]);
    vm_compute; reflexivity.
Defined.

Example incomplete_history_message :
  mock_load_threads (write_file empty_fs history_path incomplete_history_text)
    history_path
  = Raise (ThreadStorageError "Failed to load threads: 'tweets'").
Proof. vm_compute. reflexivity. Qed.

(** A stored document that is JSON but not an array makes [save_thread]
    fail and leaves the file as it was. *)
Example save_thread_on_stored_object :
  let fs := write_file empty_fs history_path "{}" in
  snd (mock_save_thread fs sample_thread history_path)
  = Raise (ThreadStorageError
             "Failed to save thread: 'dict' object has no attribute 'append'")
  /\ files (fst (mock_save_thread fs sample_thread history_path)) history_path
     = Return "{}".
Proof. vm_compute. split; reflexivity. Qed.
(** ** The timestamp survives its ISO spelling *)

Lemma read_digits_add (w1 w2 : nat) :
  forall (acc : Z) (s : string),
  PyDatetime.read_digits (w1 + w2) acc s
  = PyDatetime.option_bind (PyDatetime.read_digits w1 acc s)
      (fun vr => PyDatetime.read_digits w2 (fst vr) (snd vr)).
Proof.
  induction w1 as [|w1 IH]; intros acc s; simpl; [reflexivity|].
  destruct s as [|c r]; [reflexivity|].
  destruct (PyJson.is_digit c); [apply IH | reflexivity].
Qed.

Lemma digit_is_digit (n : Z) :
  (0 <= n)%Z ->
  PyJson.is_digit (PyDatetime.digit n) = true
  /\ (Z.of_nat (nat_of_ascii (PyDatetime.digit n)) - 48 = n mod 10)%Z.
Proof.
  intros Hn. unfold PyDatetime.digit, PyJson.is_digit.
  pose proof (Z.mod_pos_bound n 10 ltac:(lia)) as Hk.
  rewrite nat_ascii_embedding by lia.
  split; [|lia].
  apply andb_true_iff. split; apply Nat.leb_le; lia.
Qed.

Lemma read_digits_zfill (w : nat) :
  forall (n acc : Z) (rest : string),
  (0 <= n)%Z ->
  PyDatetime.read_digits w acc (PyDatetime.zfill w n ++ rest)
  = Some ((acc * 10 ^ Z.of_nat w + n mod 10 ^ Z.of_nat w)%Z, rest).
Proof.
  induction w as [|w IH]; intros n acc rest Hn.
  - simpl. rewrite Z.mod_1_r. do 2 f_equal. lia.
  - cbn [PyDatetime.zfill]. rewrite PyStr.append_assoc.
    replace (S w) with (w + 1) by lia.
    rewrite read_digits_add, IH by (apply Z.div_pos; lia).
    cbn [PyDatetime.option_bind fst snd String.append PyDatetime.read_digits].
    destruct (digit_is_digit n Hn) as [Hd Hv]. rewrite Hd, Hv.
    do 2 f_equal.
    replace (Z.of_nat (w + 1)) with (Z.succ (Z.of_nat w)) by lia.
    rewrite Z.pow_succ_r by lia.
    rewrite (Z.rem_mul_r n 10 (10 ^ Z.of_nat w)) by lia.
    lia.
Qed.

Lemma read_field (w : nat) (n : Z) (rest : string) :
  (0 <= n < 10 ^ Z.of_nat w)%Z ->
  PyDatetime.read_digits w 0 (PyDatetime.zfill w n ++ rest) = Some (n, rest).
Proof.
  intros Hn. rewrite read_digits_zfill by lia.
  now rewrite Z.mod_small by lia.
Qed.

Lemma valid_ranges (d : PyDatetime.datetime) :
  PyDatetime.valid d = true ->
  (0 <= PyDatetime.year d < 10 ^ 4 /\ 0 <= PyDatetime.month d < 10 ^ 2
   /\ 0 <= PyDatetime.day d < 10 ^ 2 /\ 0 <= PyDatetime.hour d < 10 ^ 2
   /\ 0 <= PyDatetime.minute d < 10 ^ 2 /\ 0 <= PyDatetime.second d < 10 ^ 2
   /\ 0 <= PyDatetime.microsecond d < 10 ^ 6)%Z.
Proof.
  unfold PyDatetime.valid. intros H.
  repeat (apply andb_true_iff in H; destruct H as [H ?]).
  repeat match goal with
         | H : (_ <=? _)%Z = true |- _ => apply Z.leb_le in H
         end.
  assert (PyDatetime.days_in_month (PyDatetime.year d) (PyDatetime.month d) <= 31)%Z.
  { unfold PyDatetime.days_in_month.
    repeat match goal with |- context [if ?b then _ else _] => destruct b end; lia. }
  lia.
Qed.

(** Every valid timestamp is read back from its ISO spelling. *)
Lemma fromisoformat_isoformat (d : PyDatetime.datetime) :
  PyDatetime.valid d = true ->
  PyDatetime.fromisoformat (PyDatetime.isoformat d) = Some d.
Proof.
  intros Hvalid. pose proof (valid_ranges d Hvalid) as R.
  unfold PyDatetime.fromisoformat, PyDatetime.isoformat.
  rewrite (read_field 4) by (simpl; lia).
  cbn [PyDatetime.option_bind PyDatetime.expect String.append].
  rewrite Ascii.eqb_refl.
  cbn [PyDatetime.option_bind].
  rewrite (read_field 2) by (simpl; lia).
  cbn [PyDatetime.option_bind PyDatetime.expect String.append].
  rewrite Ascii.eqb_refl.
  cbn [PyDatetime.option_bind].
  rewrite (read_field 2) by (simpl; lia).
  cbn [PyDatetime.option_bind PyDatetime.expect String.append].
  rewrite Ascii.eqb_refl.
  cbn [PyDatetime.option_bind].
  rewrite (read_field 2) by (simpl; lia).
  cbn [PyDatetime.option_bind PyDatetime.expect String.append].
  rewrite Ascii.eqb_refl.
  cbn [PyDatetime.option_bind].
  rewrite (read_field 2) by (simpl; lia).
  cbn [PyDatetime.option_bind PyDatetime.expect String.append].
  rewrite Ascii.eqb_refl.
  cbn [PyDatetime.option_bind].
  rewrite (read_field 2) by (simpl; lia).
  cbn [PyDatetime.option_bind].
  assert (Hd : {| PyDatetime.year := PyDatetime.year d;
                  PyDatetime.month := PyDatetime.month d;
                  PyDatetime.day := PyDatetime.day d;
                  PyDatetime.hour := PyDatetime.hour d;
                  PyDatetime.minute := PyDatetime.minute d;
                  PyDatetime.second := PyDatetime.second d;
                  PyDatetime.microsecond := PyDatetime.microsecond d |} = d)
    by now destruct d.
  destruct (PyDatetime.microsecond d =? 0)%Z eqn:Hus.
  - apply Z.eqb_eq in Hus. cbn [PyDatetime.option_bind].
    rewrite <- Hus, Hd, Hvalid. reflexivity.
  - cbn [PyDatetime.option_bind PyDatetime.expect String.append].
    rewrite Ascii.eqb_refl. cbn [PyDatetime.option_bind].
    rewrite <- (PyStr.append_nil_r (PyDatetime.zfill 6 (PyDatetime.microsecond d))).
    rewrite (read_field 6) by (simpl; lia).
    cbn [PyDatetime.option_bind]. rewrite Hd, Hvalid. reflexivity.
Qed.

(** Hence a thread created at any valid time is deserialized from its own
    serialization, field for field. *)
Corollary from_dict_to_dict_model (thread : Thread PyDatetime.datetime) :
  PyDatetime.valid (created_at thread) = true ->
  from_dict PyDatetime.datetime PyDatetime.fromisoformat (mock_to_dict thread)
  = Return thread.
Proof.
  intros Hvalid. apply from_dict_to_dict.
  now apply fromisoformat_isoformat.
Qed.

(** * utils/helpers.py *)

Module Helpers.

(** [len(s)] *)
Definition len (s : string) : Z := Z.of_nat (String.length s).

Fixpoint take (n : nat) (s : string) : string :=
  match n, s with
  | S n', String c r => String c (take n' r)
  | _, _ => EmptyString
  end.

(** [text[:stop]]: a negative [stop] counts from the end. *)
Definition slice_to (text : string) (stop : Z) : string :=
  if (stop <? 0)%Z then take (Z.to_nat (len text + stop)) text
  else take (Z.to_nat stop) text.

Definition truncate_text (text : string) (max_length : Z) : string :=
  if (len text <=? max_length)%Z then text
  else slice_to text (max_length - 3) ++ "...".

(** [text.split()]: the maximal runs of characters that are not
    whitespace. *)
Fixpoint words (s : string) : list string :=
  match s with
  | EmptyString => []
  | String c r =>
      if PyStr.isspace c then words r
      else
        match r with
        | String c' _ =>
            if PyStr.isspace c' then String c EmptyString :: words r
            else
              match words r with
              | w :: ws => String c w :: ws
              | [] => [String c EmptyString]
              end
        | EmptyString => [String c EmptyString]
        end
  end.

(** The locals of the loop of [split_into_tweets]. *)
Record split_state : Type := {
  sp_tweets : list string;
  sp_current_tweet : list string;
  sp_current_length : Z
}.

(** One iteration of the loop. *)
Definition add_word (max_length : Z) (st : split_state) (word : string) : split_state :=
  let word_length :=
    (len word + match sp_current_tweet st with [] => 0 | _ => 1 end)%Z in
  if (sp_current_length st + word_length <=? max_length)%Z then
    {| sp_tweets := sp_tweets st;
       sp_current_tweet := (sp_current_tweet st ++ [word])%list;
       sp_current_length := (sp_current_length st + word_length)%Z |}
  else
    {| sp_tweets := (sp_tweets st ++ [PyStr.join " " (sp_current_tweet st)])%list;
       sp_current_tweet := [word];
       sp_current_length := len word |}.

Definition finish (st : split_state) : list string :=
  match sp_current_tweet st with
  | [] => sp_tweets st
  | _ => (sp_tweets st ++ [PyStr.join " " (sp_current_tweet st)])%list
  end.

Definition split_into_tweets (text : string) (max_length : Z) : list string :=
  finish (fold_left (add_word max_length) (words text)
            {| sp_tweets := []; sp_current_tweet := []; sp_current_length := 0 |}).

Fixpoint lstrip_chars (chars s : string) : string :=
  match s with
  | String c r => if PyStr.contains c chars then lstrip_chars chars r else s
  | EmptyString => EmptyString
  end.

Fixpoint rstrip_chars (chars s : string) : string :=
  match s with
  | String c r =>
      match rstrip_chars chars r with
      | EmptyString =>
          if PyStr.contains c chars then EmptyString else String c EmptyString
      | t => String c t
      end
  | EmptyString => EmptyString
  end.

(** [s.strip(chars)] *)
Definition strip_chars (chars s : string) : string :=
  rstrip_chars chars (lstrip_chars chars s).

(** [hashtags] is [None] when the argument is left out. *)
Definition format_tweet_text (text : string) (hashtags : option (list string)) : string :=
  match hashtags with
  | None | Some [] => text
  | Some tags =>
      let hashtag_text :=
        PyStr.join " " (map (fun tag => "#" ++ strip_chars "#" tag) tags) in
      let combined :=
        text ++ String PyStr.nl (String PyStr.nl EmptyString) ++ hashtag_text in
      truncate_text combined 280
  end.

Definition validate_tweet_text (text : string) : bool :=
  if (280 <? len text)%Z then false else true.

(** ** Truncation *)

Lemma length_take (n : nat) (s : string) :
  String.length (take n s) = Nat.min n (String.length s).
Proof.
  revert s. induction n as [|n IH]; intros [|c r]; simpl; try reflexivity.
  now rewrite IH.
Qed.

Lemma len_append (a b : string) : len (a ++ b) = (len a + len b)%Z.
Proof.
  unfold len. induction a as [|c a IH]; simpl String.length; [lia|].
  rewrite !Nat2Z.inj_succ. lia.
Qed.

Lemma len_slice_to (text : string) (stop : Z) :
  len (slice_to text stop)
  = (if stop <? 0 then Z.max 0 (len text + stop) else Z.min stop (len text))%Z.
Proof.
  unfold slice_to, len. destruct (stop <? 0)%Z eqn:H; rewrite length_take.
  - apply Z.ltb_lt in H. lia.
  - apply Z.ltb_ge in H. lia.
Qed.

Lemma len_truncate_text (text : string) (max_length : Z) :
  (3 <= max_length)%Z ->
  len (truncate_text text max_length) = Z.min (len text) max_length.
Proof.
  intros Hm. unfold truncate_text.
  destruct (len text <=? max_length)%Z eqn:H.
  - apply Z.leb_le in H. lia.
  - apply Z.leb_gt in H. rewrite len_append, len_slice_to.
    destruct (max_length - 3 <? 0)%Z eqn:H3; [apply Z.ltb_lt in H3; lia|].
    change (len "...") with 3%Z. lia.
Qed.

(** X1: for a limit of at least 3, the result of [truncate_text] has the
    length of the text or the limit, whichever is smaller. *)
Theorem truncate_text_length (text : string) (max_length : Z) :
  (3 <= max_length)%Z ->
  len (truncate_text text max_length) = Z.min (len text) max_length.
Proof. exact (len_truncate_text text max_length). Qed.

(** X2: truncating twice with the same limit of at least 3 is truncating
    once. *)
Theorem truncate_text_idempotent (text : string) (max_length : Z) :
  (3 <= max_length)%Z ->
  truncate_text (truncate_text text max_length) max_length
  = truncate_text text max_length.
Proof.
  intros Hm. pose proof (len_truncate_text text max_length Hm) as Hl.
  unfold truncate_text at 1.
  replace (len (truncate_text text max_length) <=? max_length)%Z with true;
    [reflexivity|].
  symmetry. apply Z.leb_le. lia.
Qed.

(** X3: for a limit below 3, a text longer than the limit comes back longer
    than the limit: the three dots alone exceed it. *)
Theorem truncate_text_small_limit (text : string) (max_length : Z) :
  (max_length < 3)%Z ->
  (max_length < len text)%Z ->
  (max_length < len (truncate_text text max_length))%Z
  /\ len (truncate_text text max_length) = (Z.max 0 (len text + max_length - 3) + 3)%Z.
Proof.
  intros Hm Hl. unfold truncate_text.
  replace (len text <=? max_length)%Z with false by (symmetry; apply Z.leb_gt; lia).
  rewrite len_append, len_slice_to.
  replace (max_length - 3 <? 0)%Z with true by (symmetry; apply Z.ltb_lt; lia).
  change (len "...") with 3%Z. split; lia.
Qed.

Lemma validate_tweet_text_true (text : string) :
  validate_tweet_text text = true <-> (len text <= 280)%Z.
Proof.
  unfold validate_tweet_text. destruct (280 <? len text)%Z eqn:H.
  - apply Z.ltb_lt in H. split; [discriminate | lia].
  - apply Z.ltb_ge in H. split; [lia | reflexivity].
Qed.

(** X4: with at least one hashtag, what [format_tweet_text] returns always
    passes [validate_tweet_text]. *)
Theorem format_tweet_text_validates (text tag : string) (tags : list string) :
  validate_tweet_text (format_tweet_text text (Some (tag :: tags))) = true.
Proof.
  apply validate_tweet_text_true. unfold format_tweet_text.
  rewrite len_truncate_text by lia. lia.
Qed.

(** ** Splitting a text into tweets *)

Definition split_init : split_state :=
  {| sp_tweets := []; sp_current_tweet := []; sp_current_length := 0 |}.

Lemma words_not_empty (s : string) : Forall (fun w => w <> EmptyString) (words s).
Proof.
  induction s as [|c r IH]; simpl; [constructor|].
  destruct (PyStr.isspace c); [exact IH|].
  destruct r as [|c' r']; [repeat constructor; discriminate|].
  destruct (PyStr.isspace c'); [constructor; [discriminate | exact IH]|].
  destruct (words (String c' r')) as [|w ws].
  - repeat constructor; discriminate.
  - inversion IH; subst. constructor; [discriminate | assumption].
Qed.

Lemma words_nil_iff (s : string) :
  words s = [] <-> forallb PyStr.isspace (list_ascii_of_string s) = true.
Proof.
  induction s as [|c r IH]; simpl; [tauto|].
  destruct (PyStr.isspace c); simpl; [exact IH|].
  split; [|discriminate].
  destruct r as [|c' r']; [discriminate|].
  destruct (PyStr.isspace c'); [discriminate|].
  destruct (words (String c' r')); discriminate.
Qed.

Lemma len_pos (w : string) : w <> EmptyString -> (1 <= len w)%Z.
Proof. destruct w; [contradiction | unfold len; simpl; lia]. Qed.

Lemma len_join_snoc (current : list string) (w : string) :
  current <> [] ->
  len (PyStr.join " " (current ++ [w])) = (len (PyStr.join " " current) + 1 + len w)%Z.
Proof.
  induction current as [|x rest IH]; [contradiction|]. intros _.
  destruct rest as [|y rest].
  - cbn [app PyStr.join]. rewrite !len_append. change (len " ") with 1%Z. lia.
  - change (PyStr.join " " ((x :: y :: rest) ++ [w]))
      with (x ++ " " ++ PyStr.join " " ((y :: rest) ++ [w])).
    change (PyStr.join " " (x :: y :: rest))
      with (x ++ " " ++ PyStr.join " " (y :: rest)).
    rewrite !len_append, IH by discriminate. lia.
Qed.

(** What the loop keeps true when every word fits the limit. *)
Definition fits (max_length : Z) (st : split_state) : Prop :=
  Forall (fun t => 1 <= len t <= max_length)%Z (sp_tweets st)
  /\ sp_current_length st = len (PyStr.join " " (sp_current_tweet st))
  /\ (sp_current_tweet st <> [] -> (1 <= sp_current_length st <= max_length)%Z).

Lemma add_word_fits (max_length : Z) (st : split_state) (w : string) :
  (1 <= len w <= max_length)%Z ->
  fits max_length st -> fits max_length (add_word max_length st w).
Proof.
  intros Hw (Ht & Hl & Hc). unfold add_word, fits.
  destruct (sp_current_tweet st) as [|x rest] eqn:Hcur.
  - simpl in Hl.
    replace (sp_current_length st + (len w + 0) <=? max_length)%Z with true
      by (symmetry; apply Z.leb_le; change (len "") with 0%Z in Hl; lia).
    cbn [sp_tweets sp_current_tweet sp_current_length app PyStr.join].
    change (len "") with 0%Z in Hl.
    repeat split; try assumption; lia.
  - assert (Hne : x :: rest <> []) by discriminate. specialize (Hc Hne).
    destruct (sp_current_length st + (len w + 1) <=? max_length)%Z eqn:Hb.
    + apply Z.leb_le in Hb.
      cbn [sp_tweets sp_current_tweet sp_current_length].
      rewrite (len_join_snoc (x :: rest) w Hne).
      repeat split; try assumption; lia.
    + cbn [sp_tweets sp_current_tweet sp_current_length].
      split; [|split; [reflexivity | intros _; lia]].
      apply Forall_app. split; [assumption|].
      constructor; [rewrite <- Hl; lia | constructor].
Qed.

Lemma fold_add_word_fits (max_length : Z) (ws : list string) :
  forall st,
  Forall (fun w => 1 <= len w <= max_length)%Z ws ->
  fits max_length st -> fits max_length (fold_left (add_word max_length) ws st).
Proof.
  induction ws as [|w ws IH]; intros st Hws Hst; [exact Hst|].
  inversion Hws; subst. simpl. apply IH; [assumption|].
  now apply add_word_fits.
Qed.

(** X5: when no word of the text is longer than the limit, every tweet
    produced is non-empty and within the limit. *)
Theorem split_into_tweets_within_limit (text : string) (max_length : Z) :
  Forall (fun w => len w <= max_length)%Z (words text) ->
  Forall (fun t => 1 <= len t <= max_length)%Z (split_into_tweets text max_length).
Proof.
  intros Hws. unfold split_into_tweets. fold split_init.
  assert (Hfit : fits max_length
                   (fold_left (add_word max_length) (words text) split_init)).
  { apply fold_add_word_fits.
    - pose proof (words_not_empty text) as Hne.
      rewrite Forall_forall in *. intros w Hin.
      split; [apply len_pos, Hne, Hin | apply Hws, Hin].
    - unfold fits, split_init. cbn [sp_tweets sp_current_tweet sp_current_length].
      split; [constructor|]. split; [reflexivity|]. intros H. now contradiction H. }
  destruct Hfit as (Ht & Hl & Hc). unfold finish.
  destruct (sp_current_tweet _) as [|x rest] eqn:Hcur; [exact Ht|].
  apply Forall_app. split; [exact Ht|]. constructor; [|constructor].
  rewrite <- Hl. apply Hc. discriminate.
Qed.

Lemma fold_add_word_groups (max_length : Z) (ws : list string) :
  forall st groups,
  sp_tweets st = map (PyStr.join " ") groups ->
  exists groups',
    finish (fold_left (add_word max_length) ws st) = map (PyStr.join " ") groups'
    /\ List.concat groups' = (List.concat groups ++ sp_current_tweet st ++ ws)%list.
Proof.
  induction ws as [|w ws IH]; intros st groups Hg.
  - simpl. unfold finish. destruct (sp_current_tweet st) as [|x rest] eqn:Hcur.
    + exists groups. now rewrite !app_nil_r.
    + exists (groups ++ [x :: rest])%list. rewrite map_app, concat_app, Hg. simpl.
      now rewrite !app_nil_r.
  - simpl. unfold add_word at 2.
    destruct (sp_current_length st + _ <=? max_length)%Z.
    + match goal with |- context [fold_left _ ws ?s] =>
        destruct (IH s groups Hg) as (g' & Hf & Hc) end.
      exists g'. split; [exact Hf|].
      rewrite Hc. cbn [sp_current_tweet]. now rewrite <- app_assoc.
    + match goal with |- context [fold_left _ ws ?s] =>
        destruct (IH s (groups ++ [sp_current_tweet st])%list) as (g' & Hf & Hc) end.
      { cbn [sp_tweets]. now rewrite map_app, Hg. }
      exists g'. split; [exact Hf|]. rewrite Hc, concat_app.
      cbn [sp_current_tweet List.concat]. now rewrite app_nil_r, <- !app_assoc.
Qed.

(** X6: the tweets are the words of the text, in order, cut into groups
    and each group joined by single spaces: no word is lost, repeated, moved
    or split. *)
Theorem split_into_tweets_keeps_words (text : string) (max_length : Z) :
  exists groups,
    split_into_tweets text max_length = map (PyStr.join " ") groups
    /\ List.concat groups = words text.
Proof.
  destruct (fold_add_word_groups max_length (words text) split_init [] eq_refl)
    as (groups & Hf & Hc).
  exists groups. split; [exact Hf | exact Hc].
Qed.

Lemma fold_add_word_extends (max_length : Z) (ws : list string) :
  forall st,
  sp_current_tweet st <> [] ->
  exists more,
    finish (fold_left (add_word max_length) ws st) = (sp_tweets st ++ more)%list
    /\ more <> [].
Proof.
  induction ws as [|w ws IH]; intros st Hcur.
  - simpl. unfold finish. destruct (sp_current_tweet st); [contradiction|].
    eexists. split; [reflexivity | discriminate].
  - simpl. unfold add_word at 2.
    destruct (sp_current_length st + _ <=? max_length)%Z.
    + match goal with |- context [fold_left _ ws ?s] =>
        destruct (IH s) as (more & Hf & Hm) end.
      { cbn [sp_current_tweet]. now destruct (sp_current_tweet st). }
      exists more. split; [exact Hf | exact Hm].
    + match goal with |- context [fold_left _ ws ?s] =>
        destruct (IH s) as (more & Hf & Hm) end; [discriminate|].
      cbn [sp_tweets] in Hf. rewrite <- app_assoc in Hf.
      eexists. split; [exact Hf | discriminate].
Qed.

(** X7: when the first word of the text is longer than the limit, the
    first tweet produced is the empty string. *)
Theorem split_into_tweets_leading_empty_tweet
    (text : string) (max_length : Z) (w : string) (ws : list string) :
  words text = w :: ws ->
  (max_length < len w)%Z ->
  exists rest, split_into_tweets text max_length = EmptyString :: rest.
Proof.
  intros Hw Hlen. unfold split_into_tweets. rewrite Hw. simpl fold_left.
  unfold add_word at 2. cbn [sp_current_tweet sp_current_length sp_tweets].
  replace (0 + (len w + 0) <=? max_length)%Z with false
    by (symmetry; apply Z.leb_gt; lia).
  match goal with |- context [fold_left _ ws ?s] =>
    destruct (fold_add_word_extends max_length ws s) as (more & Hf & _) end;
    [discriminate|].
  rewrite Hf. simpl. eexists. reflexivity.
Qed.

(** X8: no tweet at all is produced exactly when the text is empty or made
    of whitespace only. *)
Theorem split_into_tweets_nil_iff (text : string) (max_length : Z) :
  split_into_tweets text max_length = []
  <-> forallb PyStr.isspace (list_ascii_of_string text) = true.
Proof.
  rewrite <- words_nil_iff. unfold split_into_tweets. split.
  - destruct (words text) as [|w ws]; [reflexivity|]. simpl fold_left.
    intros H. exfalso.
    match type of H with context [fold_left _ ws ?s] =>
      destruct (fold_add_word_extends max_length ws s) as (more & Hf & Hm) end.
    + unfold add_word. destruct (_ <=? max_length)%Z; discriminate.
    + rewrite Hf in H. apply app_eq_nil in H. now destruct H.
  - intros ->. reflexivity.
Qed.

End Helpers.

Lemma truncate_text_length_witness :
  Helpers.len (Helpers.truncate_text "abcdefghij" 5) = Z.min (Helpers.len "abcdefghij") 5.
Proof. apply Helpers.truncate_text_length. lia. Defined.

Lemma truncate_text_idempotent_witness :
  Helpers.truncate_text (Helpers.truncate_text "abcdefghij" 5) 5
  = Helpers.truncate_text "abcdefghij" 5.
Proof. apply Helpers.truncate_text_idempotent. lia. Defined.

Lemma truncate_text_small_limit_witness :
  (2 < Helpers.len (Helpers.truncate_text "abcdef" 2))%Z
  /\ Helpers.len (Helpers.truncate_text "abcdef" 2)
     = (Z.max 0 (Helpers.len "abcdef" + 2 - 3) + 3)%Z.
Proof. apply Helpers.truncate_text_small_limit; vm_compute; reflexivity. Defined.

Example truncate_text_small_limit_run :
  Helpers.truncate_text "abcdef" 2 = "abcde...".
Proof. reflexivity. Qed.

Lemma split_into_tweets_within_limit_witness :
  Forall (fun t => 1 <= Helpers.len t <= 5)%Z (Helpers.split_into_tweets "aaa bb c" 5).
Proof.
  apply Helpers.split_into_tweets_within_limit.
  vm_compute. repeat constructor; discriminate.
Defined.

Lemma split_into_tweets_leading_empty_tweet_witness :
  exists rest, Helpers.split_into_tweets "aaaaaaa bb c" 5 = EmptyString :: rest.
Proof.
  apply (Helpers.split_into_tweets_leading_empty_tweet "aaaaaaa bb c" 5 "aaaaaaa" ["bb"; "c"]);
    vm_compute; reflexivity.
Defined.

Example split_into_tweets_run :
  Helpers.split_into_tweets "aaaaaaa bb c" 5 = [""; "aaaaaaa"; "bb c"].
Proof. reflexivity. Qed.

(** * More on research_client.py *)

Fixpoint count_char (c : ascii) (s : string) : nat :=
  match s with
  | EmptyString => 0
  | String c' r => (if Ascii.eqb c' c then 1 else 0) + count_char c r
  end.

Lemma length_split (sep : ascii) (s : string) :
  List.length (PyStr.split sep s) = S (count_char sep s).
Proof.
  induction s as [|c r IH]; simpl; [reflexivity|].
  destruct (Ascii.eqb c sep); simpl; [now rewrite IH|].
  pose proof (PyStr.split_not_nil sep r) as Hn.
  destruct (PyStr.split sep r); [contradiction | exact IH].
Qed.

Section ResearchMore.

Variable json_loads : string -> option value.
Variable json_dumps : value -> string.
Variable generate_content : string -> generation.
Variable datetime : Type.

(** [ThreadGenerator.research_and_generate], with [now] the time at which
    the [Thread] is built. *)
Definition research_and_generate (now : datetime) (topic depth : string)
  : result (Thread datetime) :=
  let research_data := research_with_search json_loads generate_content topic in
  tweets <- generate_thread json_loads json_dumps generate_content research_data ;;
  Return (Thread_init datetime now (VStr topic) tweets research_data).

Lemma generate_thread_cases (research_data : value) :
  match generate_thread json_loads json_dumps generate_content research_data with
  | Return tweets => nonempty_list tweets = true
  | Raise e => exists m, e = ResearchError ("Failed to generate thread: " ++ m)
  end.
Proof.
  unfold generate_thread.
  destruct (generate_content _) as [response_text|e]; simpl; [|eexists; reflexivity].
  unfold generate_thread_response.
  destruct (response_text =? ""); simpl; [eexists; reflexivity|].
  destruct (json_loads _) as [tweets|]; simpl; [|eexists; reflexivity].
  destruct (nonempty_list tweets) eqn:Hn; simpl; [exact Hn | eexists; reflexivity].
Qed.

(** X9: whatever the backend answers, [generate_thread] either returns a
    non-empty list or raises a [ResearchError] whose message starts with
    [Failed to generate thread: ]. *)
Theorem generate_thread_outcome (research_data : value) :
  match generate_thread json_loads json_dumps generate_content research_data with
  | Return posts => nonempty_list posts = true
  | Raise e => exists m, e = ResearchError ("Failed to generate thread: " ++ m)
  end.
Proof. exact (generate_thread_cases research_data). Qed.

(** X10: a response whose trimmed text has fewer than three lines keeps its
    fence markers: the trimmed text itself goes to the parser, and comes back
    as the details when it does not parse. *)
Theorem short_response_keeps_markers (response_text : string) :
  (response_text =? "") = false ->
  (count_char PyStr.nl (PyStr.strip response_text) <=? 1)%nat = true ->
  research_with_search_response json_loads response_text
  = match json_loads (PyStr.strip response_text) with
    | Some v => v
    | None => error_dict "Invalid JSON response" (PyStr.strip response_text)
    end.
Proof.
  intros Hne Hlines. unfold research_with_search_response. rewrite Hne.
  assert (Hkeep : remove_code_block_markers (PyStr.strip response_text)
                  = PyStr.strip response_text).
  { unfold remove_code_block_markers.
    destruct (PyStr.startswith _ "```" && PyStr.endswith _ "```"); [|reflexivity].
    rewrite length_split. apply Nat.leb_le in Hlines.
    replace (2 <? S (count_char PyStr.nl (PyStr.strip response_text)))%nat with false;
      [reflexivity|].
    symmetry. apply Nat.ltb_ge. lia. }
  now rewrite Hkeep, PyStr.strip_idem.
Qed.

(** X11: [research_and_generate] either returns a draft for the topic,
    with a non-empty list of tweets, no tweet ids, the time of its creation
    and whatever [research_with_search] returned, or raises the
    [ResearchError] of [generate_thread]. *)
Theorem research_and_generate_outcome (now : datetime) (subject depth : string) :
  match research_and_generate now subject depth with
  | Return thread =>
      topic thread = VStr subject
      /\ nonempty_list (tweets thread) = true
      /\ tweet_ids thread = VNone
      /\ created_at thread = now
      /\ research_data thread = research_with_search json_loads generate_content subject
  | Raise e => exists m, e = ResearchError ("Failed to generate thread: " ++ m)
  end.
Proof.
  unfold research_and_generate.
  pose proof (generate_thread_cases
                (research_with_search json_loads generate_content subject)) as H.
  destruct (generate_thread _ _ _ _) as [tweets|e]; simpl; [|exact H].
  repeat split. exact H.
Qed.

(** X12: a failed research does not stop [research_and_generate]: when
    the backend raises on the research prompt and answers the thread prompt
    built from the error record with a non-empty list, the thread is
    returned with the error record as its research data. *)
Theorem research_and_generate_after_failed_research
    (now : datetime) (subject depth : string) (e : exn) (response_text : string)
    (posts : value) :
  generate_content (research_with_search_prompt subject) = GenerationRaised e ->
  generate_content
    (generate_thread_prompt json_dumps (error_dict "Research failed" (str_of_exn e)))
  = Generated response_text ->
  (response_text =? "") = false ->
  json_loads (json_text response_text) = Some posts ->
  nonempty_list posts = true ->
  research_and_generate now subject depth
  = Return (Thread_init datetime now (VStr subject) posts
              (error_dict "Research failed" (str_of_exn e))).
Proof.
  intros Hres Hgen Hne Hv Hlist. unfold research_and_generate.
  unfold research_with_search. rewrite Hres.
  unfold generate_thread. rewrite Hgen.
  rewrite (generate_thread_response_parsed json_loads _ posts Hne Hv).
  now rewrite Hlist.
Qed.

End ResearchMore.

Lemma short_response_keeps_markers_witness :
  research_with_search_response PyJson.loads "```[1]```"
  = match PyJson.loads (PyStr.strip "```[1]```") with
    | Some v => v
    | None => error_dict "Invalid JSON response" (PyStr.strip "```[1]```")
    end.
Proof.
  apply (short_response_keeps_markers PyJson.loads "```[1]```"); reflexivity.
Defined.

Example one_line_fence_is_invalid_json :
  research_with_search_response PyJson.loads "```[1]```"
  = error_dict "Invalid JSON response" "```[1]```".
Proof. vm_compute. reflexivity. Qed.

(** A backend that fails on research prompts and answers the others with
    the sample tweets. *)
Definition backend_without_research (prompt : string) : generation :=
  if PyStr.startswith prompt "Research"
  then GenerationRaised (BackendException "429 quota exceeded")
  else Generated sample_tweets_text.

Lemma research_and_generate_after_failed_research_witness :
  research_and_generate PyJson.loads PyJson.dumps backend_without_research
    PyDatetime.datetime sample_time "quantum computing" "comprehensive"
  = Return (Thread_init PyDatetime.datetime sample_time (VStr "quantum computing")
              sample_tweets
              (error_dict "Research failed"
                 (str_of_exn (BackendException "429 quota exceeded")))).
Proof.
  apply (research_and_generate_after_failed_research PyJson.loads PyJson.dumps
           backend_without_research PyDatetime.datetime sample_time
           "quantum computing" "comprehensive"
           (BackendException "429 quota exceeded") sample_tweets_text sample_tweets);
    vm_compute; reflexivity.
Defined.

(** * More on twitter_client.py and on posting from thread_generator.py *)

(** The files sent to [media_upload], in the order of the calls. *)
Fixpoint uploads_made (calls : list api_call) : list string :=
  match calls with
  | [] => []
  | MediaUpload filename :: rest => filename :: uploads_made rest
  | CreateTweet _ :: rest => uploads_made rest
  end.

(** The texts of a list of strings; [None] for any other object, which the
    model of the client, typed on strings, does not cover. *)
Fixpoint tweet_texts_of (items : list value) : option (list string) :=
  match items with
  | [] => Some []
  | VStr s :: rest =>
      match tweet_texts_of rest with
      | Some texts => Some (s :: texts)
      | None => None
      end
  | _ :: _ => None
  end.

Definition tweet_texts (v : value) : option (list string) :=
  match v with
  | VList items => tweet_texts_of items
  | _ => None
  end.

Lemma uploads_made_app (a b : list api_call) :
  uploads_made (a ++ b) = (uploads_made a ++ uploads_made b)%list.
Proof.
  induction a as [|[r|f] a IH]; simpl; [reflexivity | exact IH | now rewrite IH].
Qed.

Lemma tweet_texts_of_spec (items : list value) (texts : list string) :
  tweet_texts_of items = Some texts -> items = map VStr texts.
Proof.
  revert texts. induction items as [|x items IH]; intros texts H; simpl in H.
  - now inversion H.
  - destruct x; try discriminate.
    destruct (tweet_texts_of items) as [ts|]; [|discriminate].
    inversion H; subst. simpl. now rewrite (IH ts eq_refl).
Qed.

Lemma firstn_skipn_step {A} (l : list A) (i n : nat) :
  firstn (S n) (skipn i l)
  = (match nth_error l i with Some x => [x] | None => [] end
     ++ firstn n (skipn (S i) l))%list.
Proof.
  revert i. induction l as [|x l IH]; intros i.
  - destruct i; simpl; now rewrite ?firstn_nil.
  - destruct i as [|i]; [reflexivity|]. simpl nth_error.
    change (skipn (S i) (x :: l)) with (skipn i l).
    change (skipn (S (S i)) (x :: l)) with (skipn (S i) l). apply IH.
Qed.

Section PublishingMore.

Variable Platform : Type.
Variable create_tweet : Platform -> tweet_request -> Platform * result tweet_id.
Variable media_upload : Platform -> string -> Platform * result Z.
Variable datetime : Type.

Local Abbreviation post_state := (post_state Platform).
Local Abbreviation post_tweet := (post_tweet Platform create_tweet).
Local Abbreviation post_loop := (post_loop Platform create_tweet).
Local Abbreviation post_thread := (post_thread Platform create_tweet).
Local Abbreviation post_tweet_with_media := (post_tweet_with_media Platform create_tweet media_upload).
Local Abbreviation post_loop_with_media := (post_loop_with_media Platform create_tweet media_upload).
Local Abbreviation post_thread_with_media := (post_thread_with_media Platform create_tweet media_upload).

(** [ThreadGenerator.post_thread]: the client is chosen by the test
    [if media_paths:], and the ids are stored on the thread when the client
    returns. *)
Definition generator_post_thread (p : Platform) (thread : Thread datetime)
    (media_paths : option (list string))
  : option (post_state * result (Thread datetime)) :=
  match tweet_texts (tweets thread) with
  | None => None
  | Some texts =>
      let (st, posted) :=
        match media_paths with
        | Some (_ :: _) => post_thread_with_media p texts media_paths
        | _ => post_thread p texts
        end in
      Some (st, ids <- posted ;; Return (set_tweet_ids datetime thread ids))
  end.

Lemma post_loop_without_media (media_paths : option (list string)) (tweets : list string) :
  (forall i, has_media media_paths i = None) ->
  forall i st,
  post_loop_with_media media_paths i tweets st = post_loop tweets st.
Proof.
  intros Hnone. induction tweets as [|t ts IH]; intros i st; simpl; [reflexivity|].
  unfold post_tweet_with_media, post_tweet. rewrite Hnone.
  destruct (submit _ _ _ _ _ _) as [st' [e|]]; [reflexivity | apply IH].
Qed.

(** X13: without media paths ([None] or an empty list),
    [post_thread_with_media] makes the calls of [post_thread], leaves the
    platform in the same state and returns the same ids. *)
Theorem post_thread_with_media_without_media (p : Platform) (tweets : list string) :
  forall media_paths, In media_paths [None; Some []] ->
  fst (post_thread_with_media p tweets media_paths) = fst (post_thread p tweets)
  /\ forall ids,
       snd (post_thread_with_media p tweets media_paths) = Return ids
       <-> snd (post_thread p tweets) = Return ids.
Proof.
  intros media_paths Hin.
  assert (Hnone : forall i, has_media media_paths i = None).
  { destruct Hin as [<- | [<- | []]]; intros i; [reflexivity|].
    simpl. now destruct i. }
  unfold post_thread_with_media, post_thread.
  rewrite (post_loop_without_media media_paths tweets Hnone).
  destruct (post_loop tweets _) as [st [e|]]; simpl.
  - split; [reflexivity|]. intros ids. split; discriminate.
  - split; [reflexivity|]. intros ids. tauto.
Qed.

Lemma post_tweet_with_media_uploads
    (paths : list string) (st st' : post_state) (i : nat) (tweet : string) :
  post_tweet_with_media (Some paths) st i tweet = (st', None) ->
  uploads_made (st_calls st')
  = (uploads_made (st_calls st)
     ++ match nth_error paths i with Some f => [f] | None => [] end)%list.
Proof.
  unfold post_tweet_with_media, submit. cbn [has_media].
  destruct (nth_error paths i) as [filename|].
  - destruct (media_upload (st_platform st) filename) as [p' [media_id|e]];
      [|discriminate].
    match goal with |- context [create_tweet p' ?r] =>
      destruct (create_tweet p' r) as [p'' [j|e]] end; [|discriminate].
    intros H; inversion H; subst; clear H. cbn [st_calls].
    rewrite !uploads_made_app. simpl. now rewrite app_nil_r.
  - match goal with |- context [create_tweet (st_platform st) ?r] =>
      destruct (create_tweet (st_platform st) r) as [p'' [j|e]] end; [|discriminate].
    intros H; inversion H; subst; clear H. cbn [st_calls].
    rewrite uploads_made_app. reflexivity.
Qed.

Lemma post_loop_with_media_uploads (paths : list string) (tweets : list string) :
  forall i st st',
  post_loop_with_media (Some paths) i tweets st = (st', None) ->
  uploads_made (st_calls st')
  = (uploads_made (st_calls st) ++ firstn (List.length tweets) (skipn i paths))%list.
Proof.
  induction tweets as [|t ts IH]; intros i st st' H; simpl in H.
  - inversion H; subst. simpl. now rewrite app_nil_r.
  - destruct (post_tweet_with_media (Some paths) st i t) as [st1 [e|]] eqn:Ht;
      [discriminate|].
    rewrite (IH _ _ _ H), (post_tweet_with_media_uploads _ _ _ _ _ Ht).
    cbn [List.length]. rewrite firstn_skipn_step. now rewrite <- app_assoc.
Qed.

(** X14: when [post_thread_with_media] returns, it has uploaded exactly
    the first media paths, one per post and in order, never more paths than
    there are posts; it has submitted every post and returns one id per
    post. *)
Theorem post_thread_with_media_uploads
    (p : Platform) (tweets paths : list string) (st : post_state) (ids : list string) :
  post_thread_with_media p tweets (Some paths) = (st, Return ids) ->
  uploads_made (st_calls st) = firstn (List.length tweets) paths
  /\ texts_submitted (st_calls st) = tweets
  /\ List.length ids = List.length tweets.
Proof.
  unfold post_thread_with_media.
  destruct (post_loop_with_media (Some paths) 0 tweets (post_init Platform p))
    as [st' [e|]] eqn:Hloop; intros H; inversion H; subst; clear H.
  pose proof (post_loop_with_media_uploads _ _ _ _ _ Hloop) as Hu.
  destruct (post_loop_with_media_succeeds _ _ _ _ _ _ _ _ Hloop) as [Hl Hc].
  simpl in Hu, Hl, Hc. repeat split; assumption.
Qed.

Lemma post_thread_returns_ids (p : Platform) (texts : list string)
    (st : post_state) (ids : list string) :
  post_thread p texts = (st, Return ids) -> List.length ids = List.length texts.
Proof.
  unfold post_thread.
  destruct (post_loop texts (post_init Platform p)) as [st' [e|]] eqn:Hloop;
    intros H; inversion H; subst; clear H.
  destruct (post_loop_succeeds _ _ _ _ _ Hloop) as (raw & Hlen & _ & _ & Hids).
  rewrite Hids. simpl. now rewrite length_map.
Qed.

Lemma post_thread_with_media_returns_ids (p : Platform) (texts : list string)
    (media_paths : option (list string)) (st : post_state) (ids : list string) :
  post_thread_with_media p texts media_paths = (st, Return ids) ->
  List.length ids = List.length texts.
Proof.
  unfold post_thread_with_media.
  destruct (post_loop_with_media media_paths 0 texts (post_init Platform p))
    as [st' [e|]] eqn:Hloop; intros H; inversion H; subst; clear H.
  now destruct (post_loop_with_media_succeeds _ _ _ _ _ _ _ _ Hloop) as [Hl _].
Qed.

(** X15: when [ThreadGenerator.post_thread] returns, the thread carries
    one tweet id per tweet, as a list of strings, and its topic, tweets,
    research data and creation time are those it had. *)
Theorem generator_post_thread_sets_one_id_per_tweet
    (p : Platform) (thread posted : Thread datetime)
    (media_paths : option (list string)) (st : post_state) :
  generator_post_thread p thread media_paths = Some (st, Return posted) ->
  exists texts ids,
    tweets thread = VList (map VStr texts)
    /\ tweet_ids posted = VList (map VStr ids)
    /\ List.length ids = List.length texts
    /\ topic posted = topic thread
    /\ tweets posted = tweets thread
    /\ research_data posted = research_data thread
    /\ created_at posted = created_at thread.
Proof.
  unfold generator_post_thread.
  destruct (tweet_texts (tweets thread)) as [texts|] eqn:Htexts; [|discriminate].
  assert (Hshape : tweets thread = VList (map VStr texts)).
  { unfold tweet_texts in Htexts. destruct (tweets thread); try discriminate.
    now rewrite (tweet_texts_of_spec _ _ Htexts). }
  destruct media_paths as [[|f fs]|].
  - destruct (post_thread p texts) as [st' [ids|e]] eqn:Hp; simpl;
      intros H; inversion H; subst; clear H.
    exists texts, ids. repeat split; try assumption.
    now apply (post_thread_returns_ids p texts st).
  - destruct (post_thread_with_media p texts (Some (f :: fs))) as [st' [ids|e]] eqn:Hp;
      simpl; intros H; inversion H; subst; clear H.
    exists texts, ids. repeat split; try assumption.
    now apply (post_thread_with_media_returns_ids p texts (Some (f :: fs)) st).
  - destruct (post_thread p texts) as [st' [ids|e]] eqn:Hp; simpl;
      intros H; inversion H; subst; clear H.
    exists texts, ids. repeat split; try assumption.
    now apply (post_thread_returns_ids p texts st).
Qed.

End PublishingMore.

Lemma post_thread_with_media_without_media_witness :
  let p := scripted [Return (IdStr "100"); Return (IdStr "101")] in
  fst (mock_post_thread_with_media p ["a"; "b"] (Some []))
  = fst (mock_post_thread p ["a"; "b"])
  /\ forall ids,
       snd (mock_post_thread_with_media p ["a"; "b"] (Some [])) = Return ids
       <-> snd (mock_post_thread p ["a"; "b"]) = Return ids.
Proof.
  intros p.
  apply (post_thread_with_media_without_media mock_platform mock_create_tweet
           mock_media_upload p ["a"; "b"] (Some [])).
  simpl. tauto.
Defined.

(** Three media paths for two posts: the third file is never uploaded. *)
Definition platform_with_media : mock_platform :=
  {| tweet_script := [Return (IdStr "100"); Return (IdStr "101")];
     upload_script := [Return 7%Z; Return 8%Z; Return 9%Z] |}.

Lemma post_thread_with_media_uploads_witness :
  let run := mock_post_thread_with_media platform_with_media ["a"; "b"]
               (Some ["a.png"; "b.png"; "c.png"]) in
  uploads_made (st_calls (fst run)) = firstn 2 ["a.png"; "b.png"; "c.png"]
  /\ texts_submitted (st_calls (fst run)) = ["a"; "b"]
  /\ List.length ["100"; "101"] = 2.
Proof.
  intros run.
  apply (post_thread_with_media_uploads mock_platform mock_create_tweet
           mock_media_upload platform_with_media ["a"; "b"]
           ["a.png"; "b.png"; "c.png"] (fst run) ["100"; "101"]).
  vm_compute. reflexivity.
Defined.

Definition mock_generator_post_thread :=
  generator_post_thread mock_platform mock_create_tweet mock_media_upload
    PyDatetime.datetime.

Lemma generator_post_thread_sets_one_id_per_tweet_witness :
  exists texts ids,
    tweets sample_thread = VList (map VStr texts)
    /\ tweet_ids sample_posted_thread = VList (map VStr ids)
    /\ List.length ids = List.length texts
    /\ topic sample_posted_thread = topic sample_thread
    /\ tweets sample_posted_thread = tweets sample_thread
    /\ research_data sample_posted_thread = research_data sample_thread
    /\ created_at sample_posted_thread = created_at sample_thread.
Proof.
  apply (generator_post_thread_sets_one_id_per_tweet mock_platform mock_create_tweet
           mock_media_upload PyDatetime.datetime
           (scripted [Return (IdStr "100"); Return (IdStr "101")])
           sample_thread sample_posted_thread None
           (fst (mock_post_thread
                   (scripted [Return (IdStr "100"); Return (IdStr "101")])
                   ["Tweet 1 about quantum"; "Tweet 2 #quantum"]))).
  vm_compute. reflexivity.
Defined.

(** * More on the thread store *)

Definition is_list (v : value) : bool :=
  match v with
  | VList _ => true
  | _ => false
  end.

Lemma mapM_Forall2 {A B} (f : A -> result B) (l : list A) (r : list B) :
  mapM f l = Return r -> Forall2 (fun x y => f x = Return y) l r.
Proof.
  revert r. induction l as [|x l IH]; intros r H; simpl in H.
  - inversion H. constructor.
  - destruct (f x) as [y|e] eqn:Hx; simpl in H; [|discriminate].
    destruct (mapM f l) as [ys|e]; simpl in H; [|discriminate].
    inversion H; subst. constructor; [exact Hx | now apply IH].
Qed.

Section StoreMore.

Variable json_loads : string -> option value.
Variable json_dumps_indent : value -> string.
Variable datetime : Type.
Variable isoformat : datetime -> string.
Variable fromisoformat : string -> option datetime.

Local Abbreviation Thread := (Thread datetime).
Local Abbreviation from_dict := (from_dict datetime fromisoformat).
Local Abbreviation save_thread := (save_thread json_loads json_dumps_indent datetime isoformat).
Local Abbreviation load_threads := (load_threads json_loads datetime fromisoformat).


(** X17: when the file holds JSON that is not an array, [save_thread]
    raises [ThreadStorageError] and leaves the file system as it was: such a
    document is never overwritten. *)
Theorem save_thread_keeps_stored_non_array
    (fs : filesystem) (thread : Thread) (filepath content : string) (v : value) :
  files fs filepath = Return content ->
  json_loads content = Some v ->
  is_list v = false ->
  save_thread fs thread filepath
  = (fs, Raise (ThreadStorageError
                  ("Failed to save thread: '" ++ type_name v
                   ++ "' object has no attribute 'append'"))).
Proof.
  intros Hf Hj Hl. unfold save_thread, load_existing, json_load.
  rewrite Hf. cbn [bind]. rewrite Hj.
  destruct v; try discriminate; reflexivity.
Qed.

(** X18: a stored JSON object is read as the sequence of its keys:
    [load_threads] returns the empty list for an object without keys and
    raises [ThreadStorageError] for any other object. *)
Theorem load_threads_on_stored_object
    (fs : filesystem) (filepath content : string) (fields : list (string * value)) :
  files fs filepath = Return content ->
  json_loads content = Some (VDict fields) ->
  match fields with
  | [] => load_threads fs filepath = Return []
  | _ :: _ => exists m, load_threads fs filepath = Raise (ThreadStorageError m)
  end.
Proof.
  intros Hf Hj. unfold load_threads, json_load. rewrite Hf. cbn [bind].
  rewrite Hj. cbn [bind iterate].
  destruct fields as [|[k v] fields]; [reflexivity|].
  simpl. eexists. reflexivity.
Qed.

Lemma mapM_from_dict_raises_untolerated (entries : list value) (e : exn) :
  mapM from_dict entries = Raise e -> tolerated e = false.
Proof.
  induction entries as [|x entries IH]; [discriminate|]. cbn [mapM].
  destruct (from_dict x) as [t|e'] eqn:Hx; cbn [bind].
  - destruct (mapM from_dict entries) as [ts|e'']; cbn [bind]; [discriminate|].
    intros [= <-]. now apply IH.
  - intros [= <-]. now apply (from_dict_raises_untolerated datetime fromisoformat x).
Qed.

(** X19: when the file holds a JSON array and [load_threads] returns, it
    returns one thread per stored entry, in the order of the entries, each
    the deserialization of its entry. *)
Theorem load_threads_one_thread_per_entry
    (fs : filesystem) (filepath content : string) (entries : list value)
    (threads : list Thread) :
  files fs filepath = Return content ->
  json_loads content = Some (VList entries) ->
  load_threads fs filepath = Return threads ->
  Forall2 (fun entry thread => from_dict entry = Return thread) entries threads.
Proof.
  intros Hf Hj. unfold load_threads, json_load. rewrite Hf. cbn [bind].
  rewrite Hj. cbn [bind iterate].
  destruct (mapM from_dict entries) as [ts|e] eqn:Hm.
  - intros [= <-]. now apply mapM_Forall2.
  - pose proof (mapM_from_dict_raises_untolerated entries e Hm) as Ht.
    destruct e; try discriminate.
Qed.

End StoreMore.

Lemma save_thread_keeps_stored_non_array_witness :
  mock_save_thread (write_file empty_fs history_path "{}") sample_thread history_path
  = (write_file empty_fs history_path "{}",
     Raise (ThreadStorageError
              ("Failed to save thread: '" ++ type_name (VDict [])
               ++ "' object has no attribute 'append'"))).
Proof.
  apply (save_thread_keeps_stored_non_array PyJson.loads PyJson.dumps_indent
           PyDatetime.datetime PyDatetime.isoformat
           (write_file empty_fs history_path "{}") sample_thread history_path "{}"
           (VDict []));
    vm_compute; reflexivity.
Defined.

Lemma load_threads_on_stored_object_witness :
  mock_load_threads (write_file empty_fs history_path "{}") history_path = Return [].
Proof.
  apply (load_threads_on_stored_object PyJson.loads PyDatetime.datetime
           PyDatetime.fromisoformat
           (write_file empty_fs history_path "{}") history_path "{}" []);
    vm_compute; reflexivity.
Defined.

Lemma load_threads_one_thread_per_entry_witness :
  Forall2 (fun entry thread =>
             from_dict PyDatetime.datetime PyDatetime.fromisoformat entry = Return thread)
    [mock_to_dict sample_thread] [sample_thread].
Proof.
  apply (load_threads_one_thread_per_entry PyJson.loads PyDatetime.datetime
           PyDatetime.fromisoformat fs_with_draft history_path
           (PyJson.dumps_indent (VList [mock_to_dict sample_thread]))
           [mock_to_dict sample_thread] [sample_thread]);
    vm_compute; reflexivity.
Defined.

(** A disk that fills up after ten characters: the save raises and the file
    is left with the first ten characters of the new history. *)
Example save_thread_interrupted_write :
  let fs := {| files := files empty_fs;
               write_error := fun _ =>
                 Some (WriteFails (OSError "[Errno 28] No space left on device") 10) |} in
  snd (mock_save_thread fs sample_thread history_path)
  = Raise (ThreadStorageError
             "Failed to save thread: [Errno 28] No space left on device")
  /\ files (fst (mock_save_thread fs sample_thread history_path)) history_path
     = Return (substring 0 10
                 (PyJson.dumps_indent (VList [mock_to_dict sample_thread]))).
Proof. vm_compute. split; reflexivity. Qed.
